(** * Metadata-Cleaner: a shallow embedding of the cleaning engine

    The development follows the layout of the Python package:
    - [Enums]    : core/enums.py   (CleaningLevel, FileType)
    - [PyStr]    : the few [str] and [pathlib] operations the code relies on
    - [Result]   : core/result.py  (CleaningResult, BatchCleaningResult)
    - [Utils]    : core/utils.py   (is_supported_file, create_backup, ...)
    - [Store]    : the mutable objects (dicts and lists) and their names
    - [Fs]       : files as the decoding libraries present them
    - [Office]   : cleaners/office_cleaner.py
    - [Pdf]      : cleaners/pdf_cleaner.py
    - [Text]     : cleaners/text_cleaner.py
    - [Engine]   : cleaners/base_cleaner.py and core/cleaner.py
    - [Props]    : notions used to state the properties
    - [Examples] : concrete documents, folders and runs

    Python integers are unbounded and are modelled by [Z]; the floats of the
    derived metrics are modelled by exact rationals [Q] (binary rounding is
    not modelled); [str] is modelled by [string] (8-bit characters);
    dictionaries by [gmap string string]; mutable objects that are shared
    between a cleaner and the results it produced live in an explicit store
    and are named by references.  Paths are POSIX paths and a path names
    one file.  What the environment decides is a parameter of the run: the
    place where a file-system call fails, the order in which a directory
    scan yields its files, the order in which a pool completes its units,
    the clock. *)

From Stdlib Require Import ZArith QArith Qround Ascii String.
From Stdlib Require Import Permutation.
From stdpp Require Import gmap strings list fin_maps.

Local Open Scope Z_scope.
Set Warnings "-register-all".

(* ===================================================================== *)
(** ** The [str] and [pathlib] operations used by the code *)
(* ===================================================================== *)

Module PyStr.

Definition is_upper (c : ascii) : bool :=
  let n := nat_of_ascii c in (Nat.leb 65 n && Nat.leb n 90)%bool.

(** [str.lower] on 8-bit characters. *)
Definition lower_ascii (c : ascii) : ascii :=
  if is_upper c then ascii_of_nat (nat_of_ascii c + 32) else c.

Fixpoint lower (s : string) : string :=
  match s with
  | EmptyString => EmptyString
  | String c s' => String (lower_ascii c) (lower s')
  end.

(** [s.lstrip('.')] *)
Fixpoint lstrip_dot (s : string) : string :=
  match s with
  | String "."%char s' => lstrip_dot s'
  | _ => s
  end.

(** Whitespace as [str.strip] with no argument sees it (ASCII part). *)
Definition is_space (c : ascii) : bool :=
  let n := nat_of_ascii c in
  ((Nat.leb 9 n && Nat.leb n 13) || Nat.leb 28 n && Nat.leb n 32)%bool.

(** [bool(s.strip())]: some character of [s] is not whitespace. *)
Fixpoint strip_nonempty (s : string) : bool :=
  match s with
  | EmptyString => false
  | String c s' => if is_space c then strip_nonempty s' else true
  end.

(** [s[:n]] *)
Fixpoint take (n : nat) (s : string) : string :=
  match n, s with
  | O, _ => EmptyString
  | _, EmptyString => EmptyString
  | S n', String c s' => String c (take n' s')
  end.

(** [s.split(sep)[-1]] for a one-character separator: what follows the
    last occurrence of [sep], or the whole of [s] when there is none. *)
Fixpoint after_last (sep : ascii) (s : string) : string :=
  match s with
  | EmptyString => EmptyString
  | String c s' =>
      if existsb (Ascii.eqb sep) (list_ascii_of_string s')
      then after_last sep s'
      else if Ascii.eqb c sep then s' else s
  end.

(** Position-free versions of [PurePath.name], [.suffix] and [.stem]. *)
Definition name (p : string) : string := after_last "/"%char p.

Fixpoint rfind_dot_aux (s : string) (i : nat) (acc : option nat) : option nat :=
  match s with
  | EmptyString => acc
  | String c s' =>
      rfind_dot_aux s' (S i) (if Ascii.eqb c "."%char then Some i else acc)
  end.

Definition rfind_dot (s : string) : option nat := rfind_dot_aux s 0%nat None.

(** pathlib: [i = name.rfind('.')]; the suffix is [name[i:]] when
    [0 < i < len(name) - 1], and empty otherwise. *)
Definition suffix (p : string) : string :=
  let n := name p in
  match rfind_dot n with
  | Some i =>
      if (Nat.ltb 0 i && Nat.ltb i (String.length n - 1))%bool
      then substring i (String.length n - i) n
      else EmptyString
  | None => EmptyString
  end.

Definition stem (p : string) : string :=
  let n := name p in
  match rfind_dot n with
  | Some i =>
      if (Nat.ltb 0 i && Nat.ltb i (String.length n - 1))%bool
      then substring 0 i n
      else n
  | None => n
  end.

(** [PurePath.parent] of a path with at least one separator; a bare name
    has parent ["."]. *)
Fixpoint parent_aux (s : string) : option string :=
  match s with
  | EmptyString => None
  | String c s' =>
      match parent_aux s' with
      | Some d => Some (String c d)
      | None => if Ascii.eqb c "/"%char then Some EmptyString else None
      end
  end.

Definition parent (p : string) : string :=
  match parent_aux p with
  | Some EmptyString => "/"
  | Some d => d
  | None => "."
  end.

(** [dir / name] *)
Definition joinpath (d n : string) : string :=
  if String.eqb d "/" then d +:+ n else d +:+ "/" +:+ n.

(** [s.split(sep)] for a one-character separator. *)
Fixpoint split (sep : ascii) (s : string) : list string :=
  match s with
  | EmptyString => [EmptyString]
  | String c s' =>
      if Ascii.eqb c sep then EmptyString :: split sep s'
      else match split sep s' with
           | x :: xs => String c x :: xs
           | [] => [String c EmptyString]
           end
  end.

(** [sep.join(l)] *)
Fixpoint join (sep : string) (l : list string) : string :=
  match l with
  | [] => EmptyString
  | x :: l' =>
      match l' with
      | [] => x
      | _ :: _ => x +:+ sep +:+ join sep l'
      end
  end.

(** [s.endswith(c)] for a character [c]. *)
Fixpoint endswith (s : string) (c : ascii) : bool :=
  match s with
  | EmptyString => false
  | String a EmptyString => Ascii.eqb a c
  | String _ s' => endswith s' c
  end.

End PyStr.

(* ===================================================================== *)
(** ** core/enums.py *)
(* ===================================================================== *)

Module Enums.

Inductive CleaningLevel := BASIC | DEEP | PARANOID.

Definition CleaningLevel_eqb (a b : CleaningLevel) : bool :=
  match a, b with
  | BASIC, BASIC | DEEP, DEEP | PARANOID, PARANOID => true
  | _, _ => false
  end.

Inductive FileType :=
  | PDF | DOCX | XLSX | PPTX | ODT | ODS | ODP | RTF | TXT
  | JPEG | JPG | PNG | TIFF | TIF | GIF | BMP | WEBP
  | MP3 | FLAC | WAV | M4A | OGG
  | MP4 | AVI | MKV | MOV | WMV
  | UNKNOWN.

(** The members in definition order, as iteration over the Enum class
    yields them. *)
Definition members : list FileType :=
  [PDF; DOCX; XLSX; PPTX; ODT; ODS; ODP; RTF; TXT;
   JPEG; JPG; PNG; TIFF; TIF; GIF; BMP; WEBP;
   MP3; FLAC; WAV; M4A; OGG;
   MP4; AVI; MKV; MOV; WMV;
   UNKNOWN].

Definition value (t : FileType) : string :=
  match t with
  | PDF => "pdf" | DOCX => "docx" | XLSX => "xlsx" | PPTX => "pptx"
  | ODT => "odt" | ODS => "ods" | ODP => "odp" | RTF => "rtf" | TXT => "txt"
  | JPEG => "jpeg" | JPG => "jpg" | PNG => "png" | TIFF => "tiff"
  | TIF => "tif" | GIF => "gif" | BMP => "bmp" | WEBP => "webp"
  | MP3 => "mp3" | FLAC => "flac" | WAV => "wav" | M4A => "m4a" | OGG => "ogg"
  | MP4 => "mp4" | AVI => "avi" | MKV => "mkv" | MOV => "mov" | WMV => "wmv"
  | UNKNOWN => "unknown"
  end.

Definition FileType_eqb (a b : FileType) : bool := String.eqb (value a) (value b).

Definition is_document (t : FileType) : bool :=
  match t with
  | PDF | DOCX | XLSX | PPTX | ODT | ODS | ODP | RTF | TXT => true
  | _ => false
  end.

Definition is_image (t : FileType) : bool :=
  match t with
  | JPEG | JPG | PNG | TIFF | TIF | GIF | BMP | WEBP => true
  | _ => false
  end.

Definition is_audio (t : FileType) : bool :=
  match t with
  | MP3 | FLAC | WAV | M4A | OGG => true
  | _ => false
  end.

Definition is_video (t : FileType) : bool :=
  match t with
  | MP4 | AVI | MKV | MOV | WMV => true
  | _ => false
  end.

(** [FileType.from_extension]: lower-case, strip leading dots, then the
    first member whose value equals the extension, else UNKNOWN. *)
Fixpoint first_with_value (ext : string) (ts : list FileType) : FileType :=
  match ts with
  | [] => UNKNOWN
  | t :: ts' => if String.eqb (value t) ext then t else first_with_value ext ts'
  end.

Definition from_extension (ext : string) : FileType :=
  let ext := PyStr.lstrip_dot (PyStr.lower ext) in
  first_with_value ext members.

End Enums.


(* ===================================================================== *)
(** ** The object store

    A [dict] or [list] of the program is a mutable object; two variables
    may name the same object.  The store maps references to the current
    contents of the objects allocated so far. *)
(* ===================================================================== *)

Module Store.

Definition ref := nat.

Record store := mkStore {
  dicts : gmap nat (gmap string string);
  lists : gmap nat (list string);
  next  : nat
}.

Definition empty : store := mkStore ∅ ∅ 0%nat.

(** [d = {...}]: a new dict object *)
Definition new_dict (d : gmap string string) (st : store) : ref * store :=
  (next st, mkStore (<[next st := d]> (dicts st)) (lists st) (S (next st))).

(** [l = [...]]: a new list object *)
Definition new_list (l : list string) (st : store) : ref * store :=
  (next st, mkStore (dicts st) (<[next st := l]> (lists st)) (S (next st))).

Definition get_dict (st : store) (r : ref) : gmap string string :=
  default ∅ (dicts st !! r).

Definition get_list (st : store) (r : ref) : list string :=
  default [] (lists st !! r).

(** [d.clear()] and [l.clear()] empty the object in place *)
Definition dict_clear (r : ref) (st : store) : store :=
  mkStore (<[r := ∅]> (dicts st)) (lists st) (next st).

Definition list_clear (r : ref) (st : store) : store :=
  mkStore (dicts st) (<[r := []]> (lists st)) (next st).

(** [l.append(x)] *)
Definition list_append (r : ref) (x : string) (st : store) : store :=
  mkStore (dicts st) (<[r := get_list st r ++ [x]]> (lists st)) (next st).

End Store.

(* ===================================================================== *)
(** ** core/result.py *)
(* ===================================================================== *)

Module Result.
Import Store.

(** Outcome of an expression that may raise. *)
Inductive raises (A : Type) :=
  | Ok (a : A)
  | ZeroDivisionError.
Arguments Ok {A} a.
Arguments ZeroDivisionError {A}.

(** [a / b] on integers: true division. *)
Definition truediv (a b : Z) : raises Q :=
  if b =? 0 then ZeroDivisionError else Ok (inject_Z a / inject_Z b)%Q.

(** [round(x, n)]: to [n] decimals, ties to even. *)
Definition round (x : Q) (n : nat) : Q :=
  let scale := inject_Z (10 ^ Z.of_nat n) in
  let y := (x * scale)%Q in
  let f := Qfloor y in
  let d := (y - inject_Z f)%Q in
  let k := match (d ?= 1 # 2)%Q with
           | Lt => f
           | Gt => f + 1
           | Eq => if Z.even f then f else f + 1
           end in
  (inject_Z k / scale)%Q.

Record CleaningResult := mkCleaningResult {
  file_path : string;
  success : bool;
  original_size : Z;
  cleaned_size : Z;
  metadata_removed : ref;        (* Dict[str, str] *)
  errors : ref;                  (* List[str] *)
  warnings : ref;                (* List[str] *)
  processing_time : Q;
  backup_path : option string;
  content_hash_before : option string;
  content_hash_after : option string;
  timestamp : Z
}.

Definition size_reduction (r : CleaningResult) : Z :=
  original_size r - cleaned_size r.

Definition size_reduction_percent (r : CleaningResult) : raises Q :=
  if original_size r =? 0 then Ok 0%Q
  else match truediv (size_reduction r) (original_size r) with
       | Ok q => Ok (q * 100)%Q
       | ZeroDivisionError => ZeroDivisionError
       end.

Definition metadata_count (st : store) (r : CleaningResult) : nat :=
  size (get_dict st (metadata_removed r)).

(** The dictionary built by [CleaningResult.to_dict]. *)
Record ResultDict := mkResultDict {
  d_file_path : string;
  d_success : bool;
  d_original_size : Z;
  d_cleaned_size : Z;
  d_size_reduction : Z;
  d_size_reduction_percent : Q;
  d_metadata_removed : gmap string string;
  d_metadata_count : nat;
  d_errors : list string;
  d_warnings : list string;
  d_processing_time : Q;
  d_backup_path : option string;
  d_content_hash_before : option string;
  d_content_hash_after : option string;
  d_timestamp : Z
}.

Definition to_dict (st : store) (r : CleaningResult) : raises ResultDict :=
  match size_reduction_percent r with
  | ZeroDivisionError => ZeroDivisionError
  | Ok pct =>
      Ok {| d_file_path := file_path r;
            d_success := success r;
            d_original_size := original_size r;
            d_cleaned_size := cleaned_size r;
            d_size_reduction := size_reduction r;
            d_size_reduction_percent := round pct 2;
            d_metadata_removed := get_dict st (metadata_removed r);
            d_metadata_count := metadata_count st r;
            d_errors := get_list st (errors r);
            d_warnings := get_list st (warnings r);
            d_processing_time := round (processing_time r) 3;
            d_backup_path := backup_path r;
            d_content_hash_before := content_hash_before r;
            d_content_hash_after := content_hash_after r;
            d_timestamp := timestamp r |}
  end.

Record BatchCleaningResult := mkBatch {
  total_files : Z;
  successful : Z;
  failed : Z;
  skipped : Z;
  results : list CleaningResult;
  total_time : Q;
  total_size_reduction : Z
}.

(** [BatchCleaningResult()] *)
Definition batch_init : BatchCleaningResult := mkBatch 0 0 0 0 [] 0%Q 0.

Definition add_result (b : BatchCleaningResult) (r : CleaningResult)
  : BatchCleaningResult :=
  let results' := results b ++ [r] in
  let total' := total_files b + 1 in
  if success r then
    mkBatch total' (successful b + 1) (failed b) (skipped b) results'
            (total_time b) (total_size_reduction b + size_reduction r)
  else
    mkBatch total' (successful b) (failed b + 1) (skipped b) results'
            (total_time b) (total_size_reduction b).

Definition success_rate (b : BatchCleaningResult) : raises Q :=
  if total_files b =? 0 then Ok 0%Q
  else match truediv (successful b) (total_files b) with
       | Ok q => Ok (q * 100)%Q
       | ZeroDivisionError => ZeroDivisionError
       end.

Record BatchDict := mkBatchDict {
  bd_total_files : Z;
  bd_successful : Z;
  bd_failed : Z;
  bd_skipped : Z;
  bd_success_rate : Q;
  bd_total_time : Q;
  bd_total_size_reduction : Z;
  bd_results : list ResultDict
}.

(** [[r.to_dict() for r in self.results]]: the first element that raises
    aborts the comprehension. *)
Fixpoint to_dict_all (st : store) (rs : list CleaningResult)
  : raises (list ResultDict) :=
  match rs with
  | [] => Ok []
  | r :: rs' =>
      match to_dict st r with
      | ZeroDivisionError => ZeroDivisionError
      | Ok d =>
          match to_dict_all st rs' with
          | ZeroDivisionError => ZeroDivisionError
          | Ok ds => Ok (d :: ds)
          end
      end
  end.

Definition batch_to_dict (st : store) (b : BatchCleaningResult)
  : raises BatchDict :=
  match success_rate b with
  | ZeroDivisionError => ZeroDivisionError
  | Ok rate =>
      match to_dict_all st (results b) with
      | ZeroDivisionError => ZeroDivisionError
      | Ok ds =>
          Ok {| bd_total_files := total_files b;
                bd_successful := successful b;
                bd_failed := failed b;
                bd_skipped := skipped b;
                bd_success_rate := round rate 2;
                bd_total_time := round (total_time b) 3;
                bd_total_size_reduction := total_size_reduction b;
                bd_results := ds |}
      end
  end.

(** Folding a sequence of completed results into a fresh aggregate, as the
    loop over [as_completed(futures)] does. *)
Definition fold_results (rs : list CleaningResult) : BatchCleaningResult :=
  fold_left add_result rs batch_init.

(** Sum of [size_reduction] over the successful results. *)
Definition sum_successful (rs : list CleaningResult) : Z :=
  fold_right (fun r acc => if success r then size_reduction r + acc else acc) 0 rs.

(** How many results of a list succeeded, and how many failed. *)
Fixpoint n_success (rs : list CleaningResult) : Z :=
  match rs with
  | [] => 0
  | r :: rs' => (if success r then 1 else 0) + n_success rs'
  end.

Fixpoint n_failure (rs : list CleaningResult) : Z :=
  match rs with
  | [] => 0
  | r :: rs' => (if success r then 0 else 1) + n_failure rs'
  end.

End Result.

(* ===================================================================== *)
(** ** Files as the libraries decode them

    A file on disk is a sequence of bytes; the program only ever looks at
    it through a decoder ([zipfile], [xml.etree.ElementTree], [pikepdf]).
    A file's content is therefore represented by what its decoder yields,
    with [Raw] for bytes that no decoder of the program accepts. *)
(* ===================================================================== *)

Module Fs.

(** An [xml.etree] element: tag (in [{uri}local] form), attributes, text
    and children.  [None] and the empty string are both written [""]:
    the code only tests the text for truth and assigns [""]. *)
Inductive elem :=
  | Elem (tag : string) (attrib : list (string * string)) (text : string)
         (children : list elem).

Definition tag (e : elem) : string := let 'Elem t _ _ _ := e in t.
Definition attrib (e : elem) : list (string * string) := let 'Elem _ a _ _ := e in a.
Definition text (e : elem) : string := let 'Elem _ _ x _ := e in x.
Definition children (e : elem) : list elem := let 'Elem _ _ _ cs := e in cs.

(** A part of an archive: well-formed XML, or bytes [ET.parse] rejects. *)
Inductive part :=
  | Xml (root : elem)
  | Blob (bytes : string).

(** What [pikepdf] exposes of a document, as far as the cleaner looks. *)
Record pdf := mkPdf {
  docinfo : list (string * string);   (* pdf.docinfo, in key order *)
  root_metadata : bool;               (* pdf.Root.Metadata (XMP) present *)
  trailer_info : bool;                (* '/Info' in pdf.trailer *)
  root_names : bool;                  (* '/Names' in pdf.Root *)
  names_javascript : bool;            (* '/JavaScript' in pdf.Root.Names *)
  names_embedded_files : bool;        (* '/EmbeddedFiles' in pdf.Root.Names *)
  page_labels : bool;                 (* '/PageLabels' in pdf.Root *)
  oc_properties : bool;               (* '/OCProperties' in pdf.Root *)
  pages : string;                     (* everything else *)
  linearized : bool                   (* how the file was last saved *)
}.

Inductive content :=
  | Raw (bytes : string)
  | Zip (entries : list (string * part))
  | PdfDoc (d : pdf).

(** Paths are strings; a file system maps the paths that exist to what
    is there.  That a path cannot be opened for reading (a file without
    read permission, a directory) is not part of the content: it shows
    as a failure the run meets, see [Office.fault] and [Engine.env]. *)
Definition exists_ (fs : gmap string content) (p : string) : bool :=
  bool_decide (is_Some (fs !! p)).

End Fs.

(* ===================================================================== *)
(** ** cleaners/office_cleaner.py *)
(* ===================================================================== *)

Module Office.
Import Enums Fs.

(** *** ElementTree operations *)

(** [root.iter()]: the element and all its descendants, document order. *)
Fixpoint iter (e : elem) : list elem :=
  match e with
  | Elem _ _ _ cs => e :: flat_map iter cs
  end.

(** [elem.tag.split('}')[-1]] *)
Definition local_name (t : string) : string := PyStr.after_last "}"%char t.

(** [elem.get(key, '')] *)
Fixpoint get (a : list (string * string)) (key : string) : string :=
  match a with
  | [] => ""
  | (k, v) :: a' => if String.eqb k key then v else get a' key
  end.

(** [x in l] for a list of strings *)
Definition str_in (x : string) (l : list string) : bool :=
  existsb (String.eqb x) l.

(** *** The archive *)

(** [zf.NameToInfo]: the entry a name stands for; a later entry of the
    same name replaces an earlier one. *)
Definition NameToInfo (entries : list (string * part)) : gmap string part :=
  fold_left (fun d e => <[e.1 := e.2]> d) entries ∅.

(** [zf.namelist()] and [zf.read(name)] (the last entry of that name). *)
Definition namelist (entries : list (string * part)) : list string :=
  map fst entries.

Definition read (entries : list (string * part)) (n : string) : option part :=
  NameToInfo entries !! n.

(** *** The extracted directory *)

(** The scratch directory: its regular files by their path relative to
    it, components joined by a slash, and the paths of its
    subdirectories. *)
Record directory := mkDirectory {
  files : gmap string part;
  subdirs : list string
}.

(** The path [zf._extract_member] gives an entry below the target
    directory: the components of the entry's name without the empty
    ones, [.] and [..]. *)
Definition arcname (name : string) : list string :=
  List.filter (fun x => negb (str_in x [""; "."; ".."])) (PyStr.split "/" name).

(** [ZipInfo.is_dir()] *)
Definition is_dir (name : string) : bool := PyStr.endswith name "/".

(** The directories above a path with the given components, outermost
    first; [pre] is the path of the directory the components start in. *)
Fixpoint upperdirs (pre : string) (comps : list string) : list string :=
  match comps with
  | [] => []
  | x :: rest =>
      match rest with
      | [] => []
      | _ :: _ =>
          let here := if String.eqb pre "" then x else pre +:+ "/" +:+ x in
          here :: upperdirs here rest
      end
  end.

(** [os.makedirs] of the directories above a target: those that do not
    exist yet are made. *)
Definition makedirs (ups dirs : list string) : list string :=
  List.filter (fun u => negb (str_in u dirs)) ups ++ dirs.

(** [zf._extract_member(name, extract_path)]; [None] is an exception.
    The member is looked up by name.  The directories above the target
    are made ([os.makedirs], which raises when one of them is a regular
    file, as does the later [open] or [mkdir] when the directory just
    above is one).  A directory entry makes its directory ([os.mkdir]
    raises on a regular file); any other entry is written with
    [open(targetpath, 'wb')], which replaces a regular file and raises on
    a directory, the target directory itself included. *)
Definition extract_member (entries : list (string * part))
    (acc : option directory) (name : string) : option directory :=
  match acc with
  | None => None
  | Some d =>
      match read entries name with
      | None => None
      | Some p =>
          let comps := arcname name in
          let targetpath := PyStr.join "/" comps in
          let ups := upperdirs "" comps in
          if existsb (fun u => bool_decide (is_Some (files d !! u))) ups then None
          else
            let made := makedirs ups (subdirs d) in
            if is_dir name then
              if bool_decide (is_Some (files d !! targetpath)) then None
              else Some (mkDirectory (files d)
                           (if (String.eqb targetpath "" || str_in targetpath made)%bool
                            then made else targetpath :: made))
            else
              if (String.eqb targetpath "" || str_in targetpath made)%bool then None
              else Some (mkDirectory (<[targetpath := p]> (files d)) made)
      end
  end.

(** [zf.extractall(extract_path)]: the names of [namelist()] are
    extracted in archive order into the empty directory. *)
Definition extractall (entries : list (string * part)) : option directory :=
  fold_left (extract_member entries) (namelist entries)
            (Some (mkDirectory ∅ [])).

(** *** extract_metadata *)

(** The loop [for elem in root.iter(): if elem.text and elem.text.strip():
    metadata[prefix + tag] = elem.text[:100]]. *)
Definition collect (prefix : string) (root : elem) (metadata : gmap string string)
  : gmap string string :=
  fold_left
    (fun m e =>
       if (negb (String.eqb (text e) "") && PyStr.strip_nonempty (text e))%bool
       then <[prefix +:+ local_name (tag e) := PyStr.take 100 (text e)]> m
       else m)
    (iter root) metadata.

(** The body of the [try] of [extract_metadata]; [inr m] is an exception
    raised with [m] collected so far. *)
Definition extract_body (entries : list (string * part))
  : gmap string string + gmap string string :=
  let metadata : gmap string string := ∅ in
  let after_core :=
    if str_in "docProps/core.xml" (namelist entries) then
      match read entries "docProps/core.xml" with
      | Some (Xml root) => inl (collect "Core." root metadata)
      | _ => inr metadata
      end
    else inl metadata in
  match after_core with
  | inr m => inr m
  | inl metadata =>
      let after_app :=
        if str_in "docProps/app.xml" (namelist entries) then
          match read entries "docProps/app.xml" with
          | Some (Xml root) => inl (collect "App." root metadata)
          | _ => inr metadata
          end
        else inl metadata in
      match after_app with
      | inr m => inr m
      | inl metadata =>
          if str_in "docProps/custom.xml" (namelist entries)
          then inl (<["Custom" := "Present"]> metadata)
          else inl metadata
      end
  end.

(** [extract_metadata(file_path)]: any exception is logged and the
    metadata gathered so far is returned. *)
Definition extract_metadata (fs : gmap string content) (file_path : string)
  : gmap string string :=
  match fs !! file_path with
  | Some (Zip entries) =>
      match extract_body entries with
      | inl m => m
      | inr m => m
      end
  | _ => ∅
  end.

(** *** _clean_xml_metadata *)

Definition sensitive_tags : list string :=
  ["creator"; "lastModifiedBy"; "created"; "modified";
   "company"; "manager"; "lastPrinted"; "revision"].

(** [tag = elem.tag.split('}')[-1].lower(); tag in sensitive_tags] *)
Definition is_sensitive (e : elem) : bool :=
  str_in (PyStr.lower (local_name (tag e))) sensitive_tags.

(** The loop over [root.iter()] assigning [elem.text = ""]. *)
Fixpoint blank_sensitive (e : elem) : elem :=
  match e with
  | Elem t a x cs =>
      Elem t a (if is_sensitive e then "" else x) (map blank_sensitive cs)
  end.

(** [_clean_xml_metadata(xml_path)]: a part that does not parse raises
    inside the [try], is logged, and stays as it was. *)
Definition clean_xml_metadata (p : part) : part :=
  match p with
  | Xml root => Xml (blank_sensitive root)
  | Blob b => Blob b
  end.

(** *** _update_content_types *)

Definition metadata_parts : list string :=
  ["/docProps/core.xml"; "/docProps/app.xml"; "/docProps/custom.xml"].

(** The tag test of the path [{*}Override]: the tag is [Override] or ends
    in [}Override]. *)
Definition is_override (e : elem) : bool :=
  String.eqb (local_name (tag e)) "Override".

(** [root.findall('.//{*}Override')]: every matching proper descendant of
    the root in document order.  An element is identified by its position:
    [Some i] is the [i]-th child of the root, [None] a deeper element. *)
Fixpoint findall_from (i : nat) (cs : list elem) : list (option nat * elem) :=
  match cs with
  | [] => []
  | c :: cs' =>
      (if is_override c then [(Some i, c)] else [])
      ++ map (fun d => (None, d)) (filter (fun d => is_override d = true)
                                     (flat_map iter (children c)))
      ++ findall_from (S i) cs'
  end.

Definition findall_override (root : elem) : list (option nat * elem) :=
  findall_from 0%nat (children root).

Definition is_metadata_override (e : elem) : bool :=
  str_in (get (attrib e) "PartName") metadata_parts.

(** One iteration of the loop: [root.remove(override)] takes a child of
    the root out and raises ValueError for any other element.  The state
    is the set of child positions removed so far, [None] once raised. *)
Definition remove_step (removed : option (list nat)) (o : option nat * elem)
  : option (list nat) :=
  match removed with
  | None => None
  | Some rs =>
      if is_metadata_override o.2 then
        match o.1 with
        | Some i => Some (i :: rs)
        | None => None
        end
      else Some rs
  end.

Fixpoint keep_children (i : nat) (removed : list nat) (cs : list elem) : list elem :=
  match cs with
  | [] => []
  | c :: cs' =>
      if existsb (Nat.eqb i) removed then keep_children (S i) removed cs'
      else c :: keep_children (S i) removed cs'
  end.

(** The tree after the loop, or [None] when the loop raised. *)
Definition remove_overrides (root : elem) : option elem :=
  match fold_left remove_step (findall_override root) (Some []) with
  | Some removed =>
      Some (Elem (tag root) (attrib root) (text root)
                 (keep_children 0%nat removed (children root)))
  | None => None
  end.

(** [_update_content_types(extract_path)]: without a manifest nothing is
    done; a manifest that does not parse, or a raising loop, is logged and
    the file stays as it was (the tree is only written at the end). *)
Definition update_content_types (d : gmap string part) : gmap string part :=
  match d !! "[Content_Types].xml" with
  | None => d
  | Some (Blob _) => d
  | Some (Xml root) =>
      match remove_overrides root with
      | Some root' => <["[Content_Types].xml" := Xml root']> d
      | None => d
      end
  end.

(** *** Failures of the environment

    The file-system calls of [clean] that no inner [try] guards may
    raise.  A run of [clean] is given the place where the environment
    fails, if it does. *)
Inductive fault :=
  | NoFault
  | TempDirFault             (* the scratch directory cannot be made *)
  | ExtractFault             (* writing the extracted files raises *)
  | UnlinkFault              (* [meta_path.unlink()] raises *)
  | OpenOutputFault          (* [ZipFile(output_path, 'w')] raises *)
  | WriteFault (n : nat)     (* [zf.write] raises after [n] parts *)
  | CleanupFault.            (* removing the scratch directory on leaving
                                the [with] block raises *)

Record outcome := mkOutcome {
  ok : bool;                               (* the value returned *)
  fs_after : gmap string content;          (* the file system afterwards *)
  metadata : gmap string string;           (* self.metadata_removed *)
  error : option string                    (* the message of add_error *)
}.

Section Clean.

(** The two [re.sub] calls of [_remove_rsid_attributes] on a part's text,
    and the part they leave. *)
Variable rsid_sub : part -> part.

(** The place of a path in the order in which [rglob] yields the files of
    the scratch directory; the order is that of the directory scans and so
    given by the environment. *)
Variable scan_rank : string -> nat.

(** [_remove_rsid_attributes(xml_path)] *)
Definition remove_rsid_attributes (n : string) (d : gmap string part)
  : gmap string part :=
  match d !! n with
  | Some p => <[n := rsid_sub p]> d
  | None => d
  end.

(** [_clean_content_files(extract_path, file_ext)]; [glob] of a literal
    name yields it when it exists. *)
Definition content_files (file_ext : string) : list string :=
  if str_in file_ext [".docx"; ".odt"] then ["word/document.xml"; "content.xml"]
  else if str_in file_ext [".xlsx"; ".ods"] then ["xl/workbook.xml"; "content.xml"]
  else if str_in file_ext [".pptx"; ".odp"] then ["ppt/presentation.xml"; "content.xml"]
  else [].

Definition clean_content_files (d : gmap string part) (file_ext : string)
  : gmap string part :=
  fold_left (fun d n => remove_rsid_attributes n d) (content_files file_ext) d.

Definition metadata_files : list string :=
  ["docProps/core.xml"; "docProps/app.xml"; "docProps/custom.xml"].

(** One iteration of [for meta_file in metadata_files]; [None] is an
    exception leaving the loop.  A path that exists is a regular file or
    a directory: on a directory [_clean_xml_metadata] fails inside its
    [try] and [unlink] raises. *)
Definition metadata_file_step (level : CleaningLevel) (flt : fault)
    (acc : option directory) (meta_file : string) : option directory :=
  match acc with
  | None => None
  | Some d =>
      match files d !! meta_file with
      | Some p =>
          if CleaningLevel_eqb level BASIC
          then Some (mkDirectory (<[meta_file := clean_xml_metadata p]> (files d))
                                 (subdirs d))
          else match flt with
               | UnlinkFault => None
               | _ => Some (mkDirectory (delete meta_file (files d)) (subdirs d))
               end
      | None =>
          if str_in meta_file (subdirs d)
          then (if CleaningLevel_eqb level BASIC then Some d else None)
          else Some d
      end
  end.

(** The files [rglob('*')] yields, in the order of [scan_rank]; files of
    equal rank come as the map lists them, and a rank that tells all
    paths apart gives any order wanted. *)
Fixpoint insert_by_rank (x : string * part) (l : list (string * part))
  : list (string * part) :=
  match l with
  | [] => [x]
  | y :: l' =>
      if (scan_rank x.1 <=? scan_rank y.1)%nat then x :: l
      else y :: insert_by_rank x l'
  end.

Definition rglob (d : gmap string part) : list (string * part) :=
  foldr insert_by_rank [] (map_to_list d).

(** [_create_office_file(extract_path, output_path)]: the output is
    opened for writing, which truncates it, and the files found by
    [rglob] are added one by one; when a write raises, leaving the [with]
    block closes the archive over the parts written so far. *)
Definition create_office_file (flt : fault) (d : gmap string part)
    (output_path : string) (fs : gmap string content)
  : gmap string content * option string :=
  let found := rglob d in
  match flt with
  | OpenOutputFault => (fs, Some "cannot open output")
  | WriteFault n =>
      if (n <? length found)%nat
      then (<[output_path := Zip (take n found)]> fs, Some "write failed")
      else (<[output_path := Zip found]> fs, None)
  | _ => (<[output_path := Zip found]> fs, None)
  end.

Definition fail (fs : gmap string content) (m : gmap string string) (e : string)
  : outcome :=
  mkOutcome false fs m (Some ("Failed to clean Office document: " +:+ e)).

(** [OfficeCleaner.clean(input_path, output_path)] at [self.level]. *)
Definition clean (level : CleaningLevel) (flt : fault)
    (fs : gmap string content) (input_path output_path : string) : outcome :=
  let metadata_removed := extract_metadata fs input_path in
  match flt with
  | TempDirFault => fail fs metadata_removed "cannot create temporary directory"
  | _ =>
      match fs !! input_path with
      | Some (Zip entries) =>
          match (match flt with
                 | ExtractFault => None
                 | _ => extractall entries
                 end) with
          | None => fail fs metadata_removed "cannot extract"
          | Some extracted =>
              match fold_left (metadata_file_step level flt) metadata_files
                              (Some extracted) with
              | None => fail fs metadata_removed "cannot remove file"
              | Some d1 =>
                  let d2 :=
                    if (CleaningLevel_eqb level DEEP
                        || CleaningLevel_eqb level PARANOID)%bool
                    then clean_content_files (files d1) (PyStr.suffix input_path)
                    else files d1 in
                  let d3 := update_content_types d2 in
                  match create_office_file flt d3 output_path fs with
                  | (fs', None) =>
                      match flt with
                      | CleanupFault =>
                          fail fs' metadata_removed "cannot remove temporary directory"
                      | _ => mkOutcome true fs' metadata_removed None
                      end
                  | (fs', Some e) => fail fs' metadata_removed e
                  end
              end
          end
      | Some _ => fail fs metadata_removed "File is not a zip file"
      | None => fail fs metadata_removed "No such file or directory"
      end
  end.

End Clean.

End Office.

(* ===================================================================== *)
(** ** cleaners/pdf_cleaner.py *)
(* ===================================================================== *)

Module Pdf.
Import Enums Fs.

(** Reading [pdf.docinfo]: when the trailer has no [/Info], the getter
    puts an empty dictionary there before it returns it. *)
Definition read_docinfo (d : pdf) : pdf :=
  mkPdf (docinfo d) (root_metadata d) true (root_names d) (names_javascript d)
        (names_embedded_files d) (page_labels d) (oc_properties d) (pages d)
        (linearized d).

(** [extract_metadata] on an opened document; the test of the trailer
    comes after [pdf.docinfo] has been read. *)
Definition extract_doc (d : pdf) : gmap string string :=
  let d := read_docinfo d in
  let m : gmap string string :=
    fold_left (fun m kv => <["DocInfo." +:+ kv.1 := kv.2]> m) (docinfo d) ∅ in
  let m := if root_metadata d then <["XMP" := "Present"]> m else m in
  let m := if trailer_info d then <["Trailer.Info" := "Present"]> m else m in
  if (root_names d && names_javascript d)%bool
  then <["JavaScript" := "Present"]> m else m.

Definition extract_metadata (fs : gmap string content) (file_path : string)
  : gmap string string :=
  match fs !! file_path with
  | Some (PdfDoc d) => extract_doc d
  | _ => ∅
  end.

(** The edits [clean] makes to the opened document before saving it. *)
Definition clean_doc (level : CleaningLevel) (d : pdf) : pdf :=
  (* docinfo keys, XMP, trailer info: at every level *)
  let d := mkPdf [] false false
                 (root_names d) (names_javascript d) (names_embedded_files d)
                 (page_labels d) (oc_properties d) (pages d) (linearized d) in
  (* DEEP and PARANOID *)
  let d :=
    if (CleaningLevel_eqb level DEEP || CleaningLevel_eqb level PARANOID)%bool
    then mkPdf (docinfo d) (root_metadata d) (trailer_info d)
               (root_names d)
               (if root_names d then false else names_javascript d)
               (names_embedded_files d)
               false false (pages d) (linearized d)
    else d in
  (* PARANOID saves linearized *)
  mkPdf (docinfo d) (root_metadata d) (trailer_info d) (root_names d)
        (names_javascript d) (names_embedded_files d) (page_labels d)
        (oc_properties d) (pages d) (CleaningLevel_eqb level PARANOID).

(** [PDFCleaner.clean].  When the input does not open,
    [self.metadata_removed] is not assigned: [metadata] is [None].  The
    input is opened without [allow_overwriting_input], so [pdf.save]
    raises when [output_path] is the file that was opened, and nothing is
    written; saving to another path is taken to succeed. *)
Record outcome := mkOutcome {
  ok : bool;
  fs_after : gmap string content;
  metadata : option (gmap string string);
  error : option string
}.

Definition clean (level : CleaningLevel) (fs : gmap string content)
    (input_path output_path : string) : outcome :=
  match fs !! input_path with
  | Some (PdfDoc d) =>
      if String.eqb output_path input_path then
        mkOutcome false fs (Some (extract_metadata fs input_path))
                  (Some "Failed to clean PDF: Cannot overwrite input file")
      else
        mkOutcome true (<[output_path := PdfDoc (clean_doc level d)]> fs)
                  (Some (extract_metadata fs input_path)) None
  | _ => mkOutcome false fs None (Some "Failed to clean PDF: cannot open")
  end.

End Pdf.

(* ===================================================================== *)
(** ** cleaners/text_cleaner.py *)
(* ===================================================================== *)

Module Text.
Import Fs.

(** [p in s] for strings: [p] occurs in [s]. *)
Fixpoint starts_with (p s : string) : bool :=
  match p, s with
  | EmptyString, _ => true
  | String a p', String b s' => (Ascii.eqb a b && starts_with p' s')%bool
  | String _ _, EmptyString => false
  end.

Fixpoint contains (p s : string) : bool :=
  (starts_with p s
   || match s with
      | EmptyString => false
      | String _ s' => contains p s'
      end)%bool.

(** The characters the class [[^\\}]] excludes: backslash and closing
    brace. *)
Definition is_stop (c : ascii) : bool :=
  (Ascii.eqb c "\"%char || Ascii.eqb c "}"%char)%bool.

(** [re.sub(lit + r'[^\\}]*', '', s)] for a literal [lit]: scanning from
    the left, wherever [lit] starts, the literal and the longest run of
    characters other than backslash and closing brace after it are
    dropped, and the scan resumes behind them.  [skip] counts the
    characters of the literal still to drop, [tail] tells that the run
    after a literal is being dropped. *)
Fixpoint sub_field (lit s : string) (skip : nat) (tail : bool) : string :=
  match s with
  | EmptyString => EmptyString
  | String c s' =>
      match skip with
      | S k => sub_field lit s' k tail
      | O =>
          if (tail && negb (is_stop c))%bool then sub_field lit s' 0 true
          else if starts_with lit s
               then sub_field lit s' (String.length lit - 1)%nat true
               else String c (sub_field lit s' 0 false)
      end
  end.

Fixpoint drop (n : nat) (s : string) : string :=
  match n, s with
  | O, _ => s
  | S _, EmptyString => EmptyString
  | S k, String _ s' => drop k s'
  end.

(** [re.sub(r'\\info\{[^}]*\}', '', s)]: wherever the literal starts and a
    closing brace follows it somewhere, everything up to and including the
    first such brace is dropped. *)
Fixpoint sub_info (s : string) (skip : nat) (tail : bool) : string :=
  match s with
  | EmptyString => EmptyString
  | String c s' =>
      match skip with
      | S k => sub_info s' k tail
      | O =>
          if tail then
            if Ascii.eqb c "}"%char then sub_info s' 0 false else sub_info s' 0 true
          else if (starts_with "\info{" s && contains "}" (drop 6 s))%bool
               then sub_info s' 5 true
               else String c (sub_info s' 0 false)
      end
  end.

Definition metadata_fields : list string :=
  ["\author"; "\company"; "\operator"; "\creatim"; "\revtim"; "\printim";
   "\comment"; "\keywords"; "\subject"; "\title"; "\doccomm"].

(** The text [_clean_rtf] writes for the text it read. *)
Definition rtf_strip (content : string) : string :=
  fold_left (fun content field => sub_field field content 0 false)
            metadata_fields (sub_info content 0 false).

(** The four tests of [extract_metadata] on the text it read. *)
Definition rtf_fields (content : string) : gmap string string :=
  let metadata : gmap string string := ∅ in
  let metadata :=
    if contains "\author" content then <["Author" := "Present"]> metadata else metadata in
  let metadata :=
    if contains "\company" content then <["Company" := "Present"]> metadata else metadata in
  let metadata :=
    if contains "\creatim" content then <["CreationTime" := "Present"]> metadata else metadata in
  if contains "\revtim" content then <["RevisionTime" := "Present"]> metadata else metadata.

Record outcome := mkOutcome {
  ok : bool;
  fs_after : gmap string content;
  metadata : gmap string string;
  error : option string
}.

Section Files.

(** The text Python reads from a file opened with [encoding='utf-8',
    errors='ignore'], and the file it writes for a text. *)
Variable read_text : content -> string.
Variable write_text : string -> content.

(** [file_path.suffix.lower() == '.rtf'] *)
Definition is_rtf (file_path : string) : bool :=
  String.eqb (PyStr.lower (PyStr.suffix file_path)) ".rtf".

(** [extract_metadata(file_path)]: the first 1000 characters of an RTF
    file are looked at; a file that cannot be opened gives nothing. *)
Definition extract_metadata (fs : gmap string content) (file_path : string)
  : gmap string string :=
  if is_rtf file_path then
    match fs !! file_path with
    | Some c => rtf_fields (PyStr.take 1000 (read_text c))
    | None => ∅
    end
  else ∅.

(** [TextCleaner.clean(input_path, output_path)]; writing the output is
    taken to succeed. *)
Definition clean (fs : gmap string content) (input_path output_path : string)
  : outcome :=
  let metadata_removed := extract_metadata fs input_path in
  if is_rtf input_path then
    (* _clean_rtf *)
    match fs !! input_path with
    | Some c =>
        mkOutcome true (<[output_path := write_text (rtf_strip (read_text c))]> fs)
                  metadata_removed None
    | None =>
        mkOutcome false fs metadata_removed (Some "Failed to clean RTF: cannot open")
    end
  else if String.eqb input_path output_path then
    mkOutcome true fs metadata_removed None
  else
    (* shutil.copy2 *)
    match fs !! input_path with
    | Some c => mkOutcome true (<[output_path := c]> fs) metadata_removed None
    | None =>
        mkOutcome false fs metadata_removed
                  (Some "Failed to clean text document: cannot open")
    end.

End Files.

End Text.

(* ===================================================================== *)
(** ** core/utils.py *)
(* ===================================================================== *)

Module Utils.
Import Enums Fs.

(** [is_supported_file(file_path)] *)
Definition is_supported_file (file_path : string) : bool :=
  let ext := PyStr.lstrip_dot (PyStr.lower (PyStr.suffix file_path)) in
  negb (FileType_eqb (from_extension ext) UNKNOWN).

(** A reading of [datetime.now()]. *)
Record datetime := mkDatetime {
  year : nat; month : nat; day : nat;
  hour : nat; minute : nat; second : nat;
  microsecond : nat
}.

Definition digit (n : nat) : ascii := ascii_of_nat (48 + n mod 10).

Definition pad2 (n : nat) : string :=
  String (digit (n / 10)) (String (digit n) EmptyString).

Definition pad4 (n : nat) : string :=
  String (digit (n / 1000)) (String (digit (n / 100)) (pad2 n)).

(** [now.strftime("%Y%m%d_%H%M%S")] *)
Definition strftime (now : datetime) : string :=
  pad4 (year now) +:+ pad2 (month now) +:+ pad2 (day now) +:+ "_"
  +:+ pad2 (hour now) +:+ pad2 (minute now) +:+ pad2 (second now).

(** The path [create_backup] computes for a call made at [now]. *)
Definition backup_path_of (file_path : string) (backup_dir : option string)
    (now : datetime) : string :=
  let backup_dir :=
    match backup_dir with
    | None => PyStr.joinpath (PyStr.parent file_path) "metadata_cleaner_backups"
    | Some d => d
    end in
  let timestamp := strftime now in
  let backup_name := PyStr.stem file_path +:+ "_" +:+ timestamp +:+ PyStr.suffix file_path in
  PyStr.joinpath backup_dir backup_name.

(** [create_backup(file_path, backup_dir)]: [shutil.copy2] writes the
    copy, replacing whatever is at the backup path; [None] when the
    source cannot be read. *)
Definition create_backup (fs : gmap string content) (file_path : string)
    (backup_dir : option string) (now : datetime)
  : option (string * gmap string content) :=
  match fs !! file_path with
  | Some c =>
      let bp := backup_path_of file_path backup_dir now in
      Some (bp, <[bp := c]> fs)
  | None => None
  end.

(** The nine characters of the class of [sanitize_filename]: less-than,
    greater-than, colon, double quote, slash, backslash, bar, question
    mark and star, by their codes. *)
Definition problematic_codes : list nat :=
  [60; 62; 58; 34; 47; 92; 124; 63; 42]%nat.

Definition is_problematic (c : ascii) : bool :=
  existsb (Nat.eqb (nat_of_ascii c)) problematic_codes.

(** [sanitize_filename(filename)]: [re.sub] of a one-character class
    replaces every character of the class by an underscore. *)
Fixpoint sanitize_filename (filename : string) : string :=
  match filename with
  | EmptyString => EmptyString
  | String c s => String (if is_problematic c then "_"%char else c) (sanitize_filename s)
  end.

Section Sizes.
Variable st_size : content -> Z.

(** [get_file_size]; called on existing files only. *)
Definition get_file_size (fs : gmap string content) (p : string) : Z :=
  match fs !! p with
  | Some c => st_size c
  | None => 0
  end.

(** [verify_file_integrity(original_path, cleaned_path)] *)
Definition verify_file_integrity (fs : gmap string content)
    (original_path cleaned_path : string) : bool :=
  match fs !! cleaned_path with
  | None => false
  | Some c => negb (st_size c =? 0)
  end.

End Sizes.

End Utils.

(* ===================================================================== *)
(** ** cleaners/base_cleaner.py and core/cleaner.py *)
(* ===================================================================== *)

Module Engine.
Import Enums Fs Store Result Utils.

(** The three attributes of a [BaseCleaner] instance: each names an
    object of the store. *)
Record cleaner := mkCleaner {
  c_metadata_removed : ref;
  c_warnings : ref;
  c_errors : ref
}.

(** [BaseCleaner.__init__] *)
Definition new_cleaner (st : store) : cleaner * store :=
  let '(m, st) := new_dict ∅ st in
  let '(w, st) := new_list [] st in
  let '(e, st) := new_list [] st in
  (mkCleaner m w e, st).

(** [reset]: the three objects are emptied in place. *)
Definition reset (c : cleaner) (st : store) : store :=
  list_clear (c_errors c) (list_clear (c_warnings c) (dict_clear (c_metadata_removed c) st)).

Definition add_warning (c : cleaner) (msg : string) (st : store) : store :=
  list_append (c_warnings c) msg st.

Definition add_error (c : cleaner) (msg : string) (st : store) : store :=
  list_append (c_errors c) msg st.

Inductive cleaner_key := K_pdf | K_office | K_image | K_audio | K_video | K_text.

Record MetadataCleaner := mkMetadataCleaner {
  level : CleaningLevel;
  backup : bool;
  verify : bool;
  backup_dir : option string;
  cleaners : cleaner_key -> cleaner
}.

(** [MetadataCleaner.__init__]: one cleaner per key, made in the order
    of the dict display. *)
Definition new_MetadataCleaner (level : CleaningLevel) (backup verify : bool)
    (backup_dir : option string) (st : store) : MetadataCleaner * store :=
  let '(c_pdf, st) := new_cleaner st in
  let '(c_office, st) := new_cleaner st in
  let '(c_image, st) := new_cleaner st in
  let '(c_audio, st) := new_cleaner st in
  let '(c_video, st) := new_cleaner st in
  let '(c_text, st) := new_cleaner st in
  (mkMetadataCleaner level backup verify backup_dir
     (fun k => match k with
               | K_pdf => c_pdf | K_office => c_office | K_image => c_image
               | K_audio => c_audio | K_video => c_video | K_text => c_text
               end), st).

Definition set_cleaner (mc : MetadataCleaner) (k : cleaner_key) (c : cleaner)
  : MetadataCleaner :=
  mkMetadataCleaner (level mc) (backup mc) (verify mc) (backup_dir mc)
    (fun k' => match k, k' with
               | K_pdf, K_pdf | K_office, K_office | K_image, K_image
               | K_audio, K_audio | K_video, K_video | K_text, K_text => c
               | _, _ => cleaners mc k'
               end).

(** [_get_cleaner(file_path)] *)
Definition get_cleaner (file_path : string) : option cleaner_key :=
  let file_type := from_extension (PyStr.suffix file_path) in
  match file_type with
  | PDF => Some K_pdf
  | DOCX | XLSX | PPTX | ODT | ODS | ODP => Some K_office
  | _ =>
      if is_image file_type then Some K_image
      else if is_audio file_type then Some K_audio
      else if is_video file_type then Some K_video
      else match file_type with
           | TXT | RTF => Some K_text
           | _ => None
           end
  end.

(** The state the engine runs in: files and objects. *)
Record world := mkWorld {
  fs : gmap string content;
  heap : store
}.

(** What a call gives back: the value it returns, or the exception that
    leaves it. *)
Inductive completion (A : Type) :=
  | Returned (a : A)
  | Raised (exn : string).
Arguments Returned {A} a.
Arguments Raised {A} exn.

(** What one call of [clean_file] reads from its environment: clock
    readings and the failures the call meets.  [backup_fails] is the text
    of the exception [create_backup] raises, if it does; the two [hash]
    flags tell that the input, or the output after cleaning, cannot be
    opened for reading (no permission, or a directory). *)
Record env := mkEnv {
  office_fault : Office.fault;
  backup_fails : option string;
  hash_before_fails : bool;
  hash_after_fails : bool;
  backup_now : datetime;
  time_start : Q;
  time_end : Q;
  created : Z
}.

Section Engine.

Variable st_size : content -> Z.
Variable file_hash : content -> string.
Variable rsid_sub : part -> part.
Variable scan_rank : string -> nat.
(** The cleaners that drive an external codec (image, audio, video) and
    the text cleaner, by their effect on the files. *)
Variable foreign_clean :
  cleaner_key -> CleaningLevel -> gmap string content -> string -> string -> Office.outcome.

(** [calculate_file_hash(file_path)]: [open] raises when the file cannot
    be read. *)
Definition calculate_file_hash (unreadable : bool) (fs : gmap string content)
    (p : string) : completion string :=
  if unreadable then Raised ("[Errno 13] Permission denied: '" +:+ p +:+ "'")
  else match fs !! p with
       | Some c => Returned (file_hash c)
       | None => Raised ("[Errno 2] No such file or directory: '" +:+ p +:+ "'")
       end.

(** [cleaner.clean(input_path, output_path)]: every cleaner resets, then
    binds [self.metadata_removed] to the dict [extract_metadata] built
    (the PDF cleaner only once the input has opened), and reports a
    failure through [add_error]. *)
Definition cleaner_clean (k : cleaner_key) (lvl : CleaningLevel) (e : env)
    (c : cleaner) (w : world) (input_path output_path : string)
  : bool * cleaner * world :=
  let st := reset c (heap w) in
  let '(ok, fs', meta, err) :=
    match k with
    | K_office =>
        let o := Office.clean rsid_sub scan_rank lvl (office_fault e) (fs w)
                              input_path output_path in
        (Office.ok o, Office.fs_after o, Some (Office.metadata o), Office.error o)
    | K_pdf =>
        let o := Pdf.clean lvl (fs w) input_path output_path in
        (Pdf.ok o, Pdf.fs_after o, Pdf.metadata o, Pdf.error o)
    | _ =>
        let o := foreign_clean k lvl (fs w) input_path output_path in
        (Office.ok o, Office.fs_after o, Some (Office.metadata o), Office.error o)
    end in
  let '(c, st) :=
    match meta with
    | Some m =>
        let '(r, st) := new_dict m st in
        (mkCleaner r (c_warnings c) (c_errors c), st)
    | None => (c, st)
    end in
  let st :=
    match err with
    | Some msg => add_error c msg st
    | None => st
    end in
  (ok, c, mkWorld fs' st).

(** A result built with the dataclass defaults: fresh objects for the
    three mutable fields. *)
Definition failure_result (w : world) (e : env) (file_path : string)
    (original_size : Z) (msg : string) : CleaningResult * world :=
  let '(m, st) := new_dict ∅ (heap w) in
  let '(er, st) := new_list [msg] st in
  let '(wa, st) := new_list [] st in
  (mkCleaningResult file_path false original_size 0 m er wa 0%Q None None None
     (created e),
   mkWorld (fs w) st).

(** [MetadataCleaner.clean_file(file_path, output_path)].  The two calls
    of [calculate_file_hash] stand outside any [try]: an exception they
    raise leaves [clean_file].  ([get_file_size] is a [stat] of a path
    that [exists()] has just found by a [stat].) *)
Definition clean_file (mc : MetadataCleaner) (e : env) (w : world)
    (file_path : string) (output_path : option string)
  : completion CleaningResult * MetadataCleaner * world :=
  let output_path := default file_path output_path in
  if negb (exists_ (fs w) file_path) then
    let '(r, w) := failure_result w e file_path 0
                     ("File not found: " +:+ file_path) in (Returned r, mc, w)
  else if negb (is_supported_file file_path) then
    let '(r, w) := failure_result w e file_path (get_file_size st_size (fs w) file_path)
                     ("Unsupported file type: " +:+ PyStr.suffix file_path) in
    (Returned r, mc, w)
  else
    let original_size := get_file_size st_size (fs w) file_path in
    match (if verify mc
           then match calculate_file_hash (hash_before_fails e) (fs w) file_path with
                | Returned h => Returned (Some h)
                | Raised exn => Raised exn
                end
           else Returned None) with
    | Raised exn => (Raised exn, mc, w)
    | Returned content_hash_before =>
        let after_backup : string + (option string * world) :=
          if backup mc then
            match backup_fails e with
            | Some exn => inl exn
            | None =>
                match create_backup (fs w) file_path (backup_dir mc) (backup_now e) with
                | Some (bp, fs') => inr (Some bp, mkWorld fs' (heap w))
                | None => inl ("[Errno 2] No such file or directory: '"
                               +:+ file_path +:+ "'")
                end
            end
          else inr (None, w) in
        match after_backup with
        | inl exn =>
            let '(r, w) := failure_result w e file_path original_size
                             ("Failed to create backup: " +:+ exn) in
            (Returned r, mc, w)
        | inr (backup_path, w) =>
            match get_cleaner file_path with
            | None =>
                let '(r, w) := failure_result w e file_path original_size
                                 ("No cleaner available for: "
                                  +:+ PyStr.suffix file_path) in
                (Returned r, mc, w)
            | Some k =>
                let '(success, c, w) :=
                  cleaner_clean k (level mc) e (cleaners mc k) w file_path output_path in
                let mc := set_cleaner mc k c in
                let cleaned_size :=
                  if exists_ (fs w) output_path
                  then get_file_size st_size (fs w) output_path else 0 in
                match (if (verify mc && exists_ (fs w) output_path)%bool
                       then match calculate_file_hash (hash_after_fails e) (fs w)
                                                      output_path with
                            | Returned h => Returned (Some h)
                            | Raised exn => Raised exn
                            end
                       else Returned None) with
                | Raised exn => (Raised exn, mc, w)
                | Returned content_hash_after =>
                    let processing_time := (time_end e - time_start e)%Q in
                    let w :=
                      if (verify mc && success)%bool then
                        if negb (verify_file_integrity st_size (fs w) file_path
                                                       output_path)
                        then mkWorld (fs w)
                               (add_warning c "File integrity verification failed"
                                            (heap w))
                        else w
                      else w in
                    (Returned
                       (mkCleaningResult file_path success original_size cleaned_size
                          (c_metadata_removed c) (c_errors c) (c_warnings c)
                          processing_time backup_path content_hash_before
                          content_hash_after (created e)),
                     mc, w)
                end
            end
        end
    end.

(** The units of work of a batch, run one after the other in the order
    given; [envs] supplies the environment of each (the default one when
    the list runs out).  The pool runs the units on several threads that
    share [self.cleaners]; the interleaving of two units inside one
    cleaner is not modelled, each unit runs to its end before the next
    starts.  Every unit submitted is run, also after one has raised. *)
Fixpoint run_all (mc : MetadataCleaner) (envs : list env) (dflt : env) (w : world)
    (paths : list string)
  : list (completion CleaningResult) * MetadataCleaner * world :=
  match paths with
  | [] => ([], mc, w)
  | p :: ps =>
      let e := hd dflt envs in
      let '(r, mc, w) := clean_file mc e w p None in
      let '(rs, mc, w) := run_all mc (tl envs) dflt w ps in
      (r :: rs, mc, w)
  end.

(** The loop [for future in as_completed(futures): result =
    future.result(); batch_result.add_result(result)]: [future.result()]
    raises again what the unit raised, and the exception leaves the
    loop. *)
Fixpoint collect_results (b : BatchCleaningResult)
    (done : list (completion CleaningResult)) : completion BatchCleaningResult :=
  match done with
  | [] => Returned b
  | Returned r :: rest => collect_results (add_result b r) rest
  | Raised exn :: _ => Raised exn
  end.

(** The order in which the pool completes the submitted units. *)
Variable completion_order : list string -> list string.

(** [clean_files(file_paths, max_workers)] *)
Definition clean_files (mc : MetadataCleaner) (envs : list env) (dflt : env)
    (elapsed : Q) (w : world) (file_paths : list string)
  : completion BatchCleaningResult * MetadataCleaner * world :=
  let '(done, mc, w) := run_all mc envs dflt w (completion_order file_paths) in
  match collect_results batch_init done with
  | Returned b =>
      (Returned (mkBatch (total_files b) (successful b) (failed b) (skipped b)
                         (results b) elapsed (total_size_reduction b)),
       mc, w)
  | Raised exn => (Raised exn, mc, w)
  end.


End Engine.

End Engine.

(* ===================================================================== *)
(** ** Notions used to state the properties *)
(* ===================================================================== *)

Module Props.
Import Enums Fs Office.

(** An [Override] entry of the manifest for one of the three metadata
    parts: what the loop of [_update_content_types] removes. *)
Definition targeted (c : elem) : bool :=
  (is_override c && is_metadata_override c)%bool.

(** A manifest as the package format has it: the [Override] entries are
    children of the root, none lies deeper. *)
Definition flat_manifest (root : elem) : bool :=
  forallb (fun c => forallb (fun d => negb (is_override d))
                      (flat_map iter (children c)))
          (children root).

(** The part an entry names: its [PartName] without the leading slash. *)
Definition part_named (c : elem) : option string :=
  match get (attrib c) "PartName" with
  | String "/"%char n => Some n
  | _ => None
  end.

(** Every [Override] entry of the manifest names a part of the
    directory. *)
Definition manifest_consistent (d : gmap string part) (root : elem) : bool :=
  forallb (fun c => implb (is_override c)
                      match part_named c with
                      | Some n => bool_decide (is_Some (d !! n))
                      | None => false
                      end)
          (children root).

(** Tag, attributes and text of an element, without its children. *)
Definition shallow (e : elem) : string * list (string * string) * string :=
  (tag e, attrib e, text e).

(** The entries of [sensitive_tags] that a lower-cased tag can equal. *)
Definition blanked_tags : list string :=
  ["creator"; "created"; "modified"; "company"; "manager"; "revision"].

Definition lower_tag (e : elem) : string := PyStr.lower (local_name (tag e)).

(** What BASIC does to one element, compared with the element it was. *)
Definition basic_relates (x y : elem) : Prop :=
  tag y = tag x
  /\ attrib y = attrib x
  /\ (str_in (lower_tag x) (map PyStr.lower sensitive_tags) = false -> text y = text x)
  /\ (str_in (lower_tag x) blanked_tags = true -> text y = "").

(** The files [clean] repackages, from the files left by the loop over
    the metadata files. *)
Definition finish_dir (rsid_sub : part -> part) (level : CleaningLevel)
    (input_path : string) (d1 : gmap string part) : gmap string part :=
  update_content_types
    (if (CleaningLevel_eqb level DEEP || CleaningLevel_eqb level PARANOID)%bool
     then clean_content_files rsid_sub d1 (PyStr.suffix input_path)
     else d1).

(** A reading of the clock that [datetime.now()] can give, in the range
    where [%Y] prints four digits. *)
Definition valid_datetime (t : Utils.datetime) : Prop :=
  (1000 <= Z.of_nat (Utils.year t) <= 9999)%Z
  /\ (1 <= Utils.month t <= 12 /\ 1 <= Utils.day t <= 31 /\ Utils.hour t <= 23
      /\ Utils.minute t <= 59 /\ Utils.second t <= 59)%nat.

(** No character of the string belongs to the class of
    [sanitize_filename]. *)
Definition unproblematic (s : string) : bool :=
  forallb (fun c => negb (Utils.is_problematic c)) (list_ascii_of_string s).

(** What [extract_metadata] promises of every entry it reports: a value
    of at most 100 characters under a key of one of the three kinds. *)
Definition reported (k v : string) : Prop :=
  (String.length v <= 100)%nat
  /\ ((exists x, k = "Core." +:+ x) \/ (exists x, k = "App." +:+ x) \/ k = "Custom").

(** The content at a path is a zip archive. *)
Definition is_archive (fs : gmap string content) (p : string) : bool :=
  match fs !! p with
  | Some (Zip _) => true
  | _ => false
  end.

(** The directory the archive at a path extracts to: [None] when there
    is no archive at the path or [extractall] raises. *)
Definition extracted (fs : gmap string content) (p : string) : option directory :=
  match fs !! p with
  | Some (Zip entries) => extractall entries
  | _ => None
  end.



(** An entry name as packages have them: not empty, no directory entry,
    and made of components none of which is empty, [.] or [..]. *)
Definition plain_name (n : string) : bool :=
  (negb (String.eqb n "") && negb (is_dir n)
   && String.eqb (PyStr.join "/" (arcname n)) n)%bool.

(** An archive all of whose names are plain and in which no entry lies
    below the path of another entry. *)
Definition plain_archive (entries : list (string * part)) : bool :=
  (forallb plain_name (namelist entries)
   && forallb (fun n => forallb (fun u => negb (str_in u (namelist entries)))
                          (upperdirs "" (arcname n)))
              (namelist entries))%bool.


(** A call of [clean_file] that gives up before any cleaner runs: the
    result is a failure with the given original size and the one error
    message, built on fresh objects; no file has changed, the engine and
    every object that existed before the call are as they were. *)
Definition rejected (mc : Engine.MetadataCleaner) (w : Engine.world)
    (res : Engine.completion Result.CleaningResult * Engine.MetadataCleaner
           * Engine.world)
    (file_path : string) (size : Z) (msg : string) : Prop :=
  let w' := res.2 in
  exists r,
  res.1.1 = Engine.Returned r
  /\ Result.success r = false
  /\ Result.file_path r = file_path
  /\ Result.original_size r = size
  /\ Result.cleaned_size r = 0
  /\ Result.backup_path r = None
  /\ Store.get_list (Engine.heap w') (Result.errors r) = [msg]
  /\ Store.get_list (Engine.heap w') (Result.warnings r) = []
  /\ Store.get_dict (Engine.heap w') (Result.metadata_removed r) = ∅
  /\ Engine.fs w' = Engine.fs w
  /\ res.1.2 = mc
  /\ (forall r0, (r0 < Store.next (Engine.heap w))%nat ->
        Store.dicts (Engine.heap w') !! r0 = Store.dicts (Engine.heap w) !! r0
        /\ Store.lists (Engine.heap w') !! r0 = Store.lists (Engine.heap w) !! r0).








End Props.

(* ===================================================================== *)
(** ** Concrete inputs used by the examples below *)
(* ===================================================================== *)

Module Examples.
Import Enums Fs Store Result Utils Engine.

(** A result with the given outcome and sizes; the three mutable fields
    name the objects 0, 1 and 2. *)
Definition result_of (p : string) (ok : bool) (orig cleaned : Z) : CleaningResult :=
  mkCleaningResult p ok orig cleaned 0%nat 1%nat 2%nat 0%Q None None None 0.

Definition five_valid : list CleaningResult :=
  [result_of "a.docx" true 100 90; result_of "b.docx" true 200 150;
   result_of "c.pdf" true 300 300; result_of "d.png" true 50 60;
   result_of "e.mp3" true 10 4].

Definition empty_file_result : CleaningResult := result_of "empty.txt" true 0 0.

(** Two readings of the clock within one second. *)
Definition now1 : datetime := mkDatetime 2024 1 15 10 30 45 100.
Definition now2 : datetime := mkDatetime 2024 1 15 10 30 45 900.

(** Parts of a small word-processing document. *)
Definition core_xml : part :=
  Xml (Elem "{http://schemas.openxmlformats.org/package/2006/metadata/core-properties}coreProperties" [] ""
    [Elem "{http://purl.org/dc/elements/1.1/}creator" [] "Alice" [];
     Elem "{http://purl.org/dc/elements/1.1/}title" [] "Quarterly report" [];
     Elem "{http://schemas.openxmlformats.org/package/2006/metadata/core-properties}revision" [] "3" []]).

Definition content_types_xml : part :=
  Xml (Elem "{http://schemas.openxmlformats.org/package/2006/content-types}Types" [] ""
    [Elem "{http://schemas.openxmlformats.org/package/2006/content-types}Default"
          [("Extension", "xml"); ("ContentType", "application/xml")] "" [];
     Elem "{http://schemas.openxmlformats.org/package/2006/content-types}Override"
          [("PartName", "/word/document.xml"); ("ContentType", "application/main+xml")] "" [];
     Elem "{http://schemas.openxmlformats.org/package/2006/content-types}Override"
          [("PartName", "/docProps/core.xml"); ("ContentType", "application/core+xml")] "" []]).

Definition document_xml : part :=
  Xml (Elem "{w}document" [] "" [Elem "{w}body" [] "Hello" []]).

Definition report_docx : content :=
  Zip [("[Content_Types].xml", content_types_xml);
       ("word/document.xml", document_xml);
       ("docProps/core.xml", core_xml)].

Definition paper_pdf : pdf :=
  mkPdf [("/Author", "Alice"); ("/Title", "Annual report")]
        true true true true false true true "pages" false.

(** A folder with five files of supported types, one of which is no
    archive, and one file of an unknown type. *)
Definition disk : gmap string content :=
  <["/docs/report.docx" := report_docx]>
  (<["/docs/broken.docx" := Raw "not an archive"]>
  (<["/docs/notes.xyz" := Raw "plain"]>
  (<["/docs/paper.pdf" := PdfDoc paper_pdf]>
  (<["/docs/readme.txt" := Raw "hello"]>
  (<["/docs/photo.png" := Raw "pixels"]> ∅))))).


(** The part [name] of the archive at [path], if there is one. *)
Definition out_part (fs : gmap string content) (path name : string) : option part :=
  match fs !! path with
  | Some (Zip es) => Office.read es name
  | _ => None
  end.

(** Stand-ins for what the model takes as given. *)
Definition size1 (c : content) : Z := 1.
Definition hash0 (c : content) : string := "".
Definition rsid_id (p : part) : part := p.
Definition foreign_copy (k : cleaner_key) (l : CleaningLevel)
    (fs : gmap string content) (i o : string) : Office.outcome :=
  match fs !! i with
  | Some c => Office.mkOutcome true (<[o := c]> fs) ∅ None
  | None => Office.mkOutcome false fs ∅ (Some "cannot open")
  end.
Definition in_order (l : list string) : list string := l.

(** A scan that yields the files of the top directory before those of
    the subdirectories: the rank of a path is the number of its
    separators. *)
Definition top_first (n : string) : nat :=
  length (List.filter (Ascii.eqb "/"%char) (list_ascii_of_string n)).

Definition quiet : env := mkEnv Office.NoFault None false false now1 0%Q 1%Q 0.

Definition clean_file0 :=
  clean_file size1 hash0 rsid_id top_first foreign_copy.

(** An engine at the DEEP level without backup and verification, as the
    test fixture makes it, in a store holding nothing else. *)
Definition engine0 : MetadataCleaner * store :=
  new_MetadataCleaner DEEP false false None Store.empty.

(** The first call cleans the document, the second one meets the broken
    file. *)
Definition first_call : completion CleaningResult * MetadataCleaner * world :=
  clean_file0 engine0.1 quiet (mkWorld disk engine0.2) "/docs/report.docx" None.

Definition second_call : completion CleaningResult * MetadataCleaner * world :=
  clean_file0 first_call.1.2 quiet first_call.2 "/docs/broken.docx" None.

(** The same document cleaned twice in place at the BASIC level. *)
Definition engine_basic : MetadataCleaner * store :=
  new_MetadataCleaner BASIC false false None Store.empty.

Definition basic_first : completion CleaningResult * MetadataCleaner * world :=
  clean_file0 engine_basic.1 quiet (mkWorld disk engine_basic.2) "/docs/report.docx" None.

Definition basic_second : completion CleaningResult * MetadataCleaner * world :=
  clean_file0 basic_first.1.2 quiet basic_first.2 "/docs/report.docx" None.




(** A manifest whose entry for the core properties lies below a child of
    the root, and a directory holding it. *)
Definition nested_override : elem :=
  Elem "Override" [("PartName", "/docProps/core.xml")] "" [].

Definition nested_group : elem := Elem "Group" [] "" [nested_override].

Definition nested_manifest : elem := Elem "Types" [] "" [nested_group].

Definition nested_dir : gmap string part :=
  <["[Content_Types].xml" := Xml nested_manifest]> ∅.

Definition modified_by : elem :=
  Elem "{http://schemas.openxmlformats.org/package/2006/metadata/core-properties}lastModifiedBy"
       [] "Bob" [].

(** Reading and writing a text file whose bytes are its characters. *)
Definition read_raw (c : content) : string :=
  match c with
  | Raw bytes => bytes
  | _ => ""
  end.

Definition memo_rtf : content :=
  Raw "{\rtf1{\info{\author Alice}{\title T}}Hello \b world}".


(** Archives whose extraction meets a regular file where it needs a
    directory, whose entry lies below the path of a metadata part, and
    whose names are not plain. *)
Definition clash_disk : gmap string content :=
  <["/docs/clash.docx" := Zip [("word", Blob "x"); ("word/document.xml", document_xml)]]>
  (<["/docs/below.docx" := Zip [("docProps/core.xml/x", Blob "1")]]>
  (<["/docs/odd.docx" := Zip [("word/", Blob ""); ("/docProps/core.xml", core_xml);
                               ("word/./document.xml", document_xml)]]> ∅)).

(** An engine with verification on, and a call whose input cannot be
    opened for hashing. *)
Definition engine_verify : MetadataCleaner * store :=
  new_MetadataCleaner DEEP false true None Store.empty.

Definition unreadable : env := mkEnv Office.NoFault None true false now1 0%Q 1%Q 0.

(*EXAMPLES-END*)
End Examples.

(* ===================================================================== *)
(** * Properties *)
(* ===================================================================== *)

(** ** Sanity checks of the string and path operations *)

Example suffix_examples :
  PyStr.suffix "/a/b.c/report.final.DOCX" = ".DOCX"
  /\ PyStr.stem "/a/b.c/report.final.DOCX" = "report.final"
  /\ PyStr.suffix ".bashrc" = "" /\ PyStr.suffix "x." = ""
  /\ PyStr.parent "/a/b/c.txt" = "/a/b" /\ PyStr.parent "c.txt" = "."
  /\ Enums.from_extension ".DocX" = Enums.DOCX
  /\ Enums.from_extension ".xyz" = Enums.UNKNOWN.
Proof. repeat split; vm_compute; reflexivity. Qed.

(** ** The batch aggregate (core/result.py) *)

Section BatchFacts.
Import Store Result.

Lemma add_result_total b r : total_files (add_result b r) = total_files b + 1.
Proof. unfold add_result; destruct (success r); reflexivity. Qed.

Lemma add_result_results b r : results (add_result b r) = results b ++ [r].
Proof. unfold add_result; destruct (success r); reflexivity. Qed.

Lemma add_result_skipped b r : skipped (add_result b r) = skipped b.
Proof. unfold add_result; destruct (success r); reflexivity. Qed.

Lemma add_result_successful b r :
  successful (add_result b r) = successful b + (if success r then 1 else 0).
Proof. unfold add_result; destruct (success r); simpl; lia. Qed.

Lemma add_result_failed b r :
  failed (add_result b r) = failed b + (if success r then 0 else 1).
Proof. unfold add_result; destruct (success r); simpl; lia. Qed.

Lemma add_result_reduction b r :
  total_size_reduction (add_result b r)
  = total_size_reduction b + (if success r then size_reduction r else 0).
Proof. unfold add_result; destruct (success r); simpl; lia. Qed.

(** The aggregate after folding [rs] into any aggregate [b]. *)
Lemma fold_add_result rs : forall b,
  let b' := fold_left add_result rs b in
  total_files b' = total_files b + Z.of_nat (length rs)
  /\ successful b' = successful b + n_success rs
  /\ failed b' = failed b + n_failure rs
  /\ skipped b' = skipped b
  /\ results b' = results b ++ rs
  /\ total_size_reduction b' = total_size_reduction b + sum_successful rs.
Proof.
  induction rs as [|r rs IH]; intros b; simpl.
  - rewrite app_nil_r. repeat split; lia.
  - specialize (IH (add_result b r)). simpl in IH.
    destruct IH as (Ht & Hs & Hf & Hk & Hr & Hz).
    rewrite Ht, Hs, Hf, Hk, Hr, Hz.
    rewrite add_result_total, add_result_successful, add_result_failed,
      add_result_skipped, add_result_results, add_result_reduction.
    rewrite <- app_assoc. simpl.
    repeat split; try lia.
    destruct (success r); lia.
Qed.

Lemma n_success_perm l1 l2 : Permutation l1 l2 -> n_success l1 = n_success l2.
Proof. induction 1; simpl; try lia. Qed.

Lemma n_failure_perm l1 l2 : Permutation l1 l2 -> n_failure l1 = n_failure l2.
Proof. induction 1; simpl; try lia. Qed.

Lemma sum_successful_perm l1 l2 :
  Permutation l1 l2 -> sum_successful l1 = sum_successful l2.
Proof.
  induction 1 as [|a l l' _ IH|a a' l|l l' l'' _ IH1 _ IH2]; simpl; try lia.
  - destruct (success a); lia.
  - destruct (success a), (success a'); lia.
Qed.

Lemma n_success_all rs :
  forallb success rs = true -> n_success rs = Z.of_nat (length rs).
Proof.
  induction rs as [|r rs IH]; simpl; [reflexivity|].
  intros H. apply andb_true_iff in H as [Hr Hrs]. rewrite Hr, IH by assumption. lia.
Qed.

Lemma n_success_failure rs : n_success rs + n_failure rs = Z.of_nat (length rs).
Proof. induction rs as [|r rs IH]; simpl; [reflexivity|]. destruct (success r); lia. Qed.

(** C6: folding the same results into a fresh aggregate in any order gives
    the same total_files, successful, failed and total_size_reduction;
    total_size_reduction is the sum of size_reduction over the successful
    results; and when every result succeeded, total_files and successful
    both equal the number of results (five valid files give 5 and 5). *)
Theorem add_result_commutative_fold (l1 l2 : list CleaningResult) :
  Permutation l1 l2 ->
  let b1 := fold_results l1 in
  let b2 := fold_results l2 in
  total_files b1 = total_files b2
  /\ successful b1 = successful b2
  /\ failed b1 = failed b2
  /\ total_size_reduction b1 = total_size_reduction b2
  /\ total_size_reduction b1 = sum_successful l1
  /\ (forallb success l1 = true ->
      total_files b1 = Z.of_nat (length l1) /\ successful b1 = Z.of_nat (length l1)).
Proof.
  intros HP b1 b2. unfold b1, b2, fold_results.
  destruct (fold_add_result l1 batch_init) as (Ht1 & Hs1 & Hf1 & _ & _ & Hz1).
  destruct (fold_add_result l2 batch_init) as (Ht2 & Hs2 & Hf2 & _ & _ & Hz2).
  simpl in *.
  rewrite Ht1, Ht2, Hs1, Hs2, Hf1, Hf2, Hz1, Hz2.
  rewrite (Permutation_length HP), (n_success_perm _ _ HP),
    (n_failure_perm _ _ HP), (sum_successful_perm _ _ HP).
  repeat split; try lia.
  rewrite <- (n_success_perm _ _ HP), <- (Permutation_length HP).
  rewrite n_success_all by assumption. lia.
Qed.

(** C9: after any sequence of add_result calls on a fresh aggregate,
    total_files = successful + failed = the length of the results list,
    and skipped is still 0; add_result never changes skipped. *)
Theorem batch_counts_invariant (rs : list CleaningResult) :
  let b := fold_results rs in
  total_files b = successful b + failed b
  /\ total_files b = Z.of_nat (length (results b))
  /\ skipped b = 0
  /\ forall b' r, skipped (add_result b' r) = skipped b'.
Proof.
  intros b. unfold b, fold_results.
  destruct (fold_add_result rs batch_init) as (Ht & Hs & Hf & Hk & Hr & _).
  simpl in *. rewrite Ht, Hs, Hf, Hk, Hr.
  pose proof (n_success_failure rs).
  repeat split; try lia. apply add_result_skipped.
Qed.

End BatchFacts.

Lemma add_result_commutative_fold_witness :
  Permutation Examples.five_valid (rev Examples.five_valid)
  /\ Result.total_files (Result.fold_results Examples.five_valid) = 5
  /\ Result.successful (Result.fold_results Examples.five_valid) = 5
  /\ Result.total_size_reduction (Result.fold_results Examples.five_valid)
     = Result.total_size_reduction (Result.fold_results (rev Examples.five_valid))
  /\ Result.total_size_reduction (Result.fold_results Examples.five_valid)
     = 10 + 50 + 0 + -10 + 6.
Proof.
  pose proof (add_result_commutative_fold Examples.five_valid
                (rev Examples.five_valid) (Permutation_rev _)) as H.
  cbv zeta in H. destruct H as (_ & _ & _ & Hz & Hs & Hall).
  destruct (Hall eq_refl) as [Ht Hn].
  split; [apply Permutation_rev|].
  split; [exact Ht|]. split; [exact Hn|]. split; [exact Hz|].
  rewrite Hs. reflexivity.
Defined.

(** ** Derived metrics and serialization (core/result.py) *)

Section MetricFacts.
Import Store Result.

Lemma truediv_nonzero a b : b <> 0 -> truediv a b = Ok (inject_Z a / inject_Z b)%Q.
Proof. intros H. unfold truediv. destruct (Z.eqb_spec b 0); [contradiction|reflexivity]. Qed.

Lemma size_reduction_percent_total r : exists q, size_reduction_percent r = Ok q.
Proof.
  unfold size_reduction_percent.
  destruct (Z.eqb_spec (original_size r) 0) as [|Hne]; [eauto|].
  rewrite truediv_nonzero by assumption. eauto.
Qed.

Lemma success_rate_total b : exists q, success_rate b = Ok q.
Proof.
  unfold success_rate.
  destruct (Z.eqb_spec (total_files b) 0) as [|Hne]; [eauto|].
  rewrite truediv_nonzero by assumption. eauto.
Qed.

Lemma to_dict_total st r : exists d, to_dict st r = Ok d.
Proof.
  unfold to_dict. destruct (size_reduction_percent_total r) as [q ->]. eauto.
Qed.

Lemma to_dict_all_total st rs : exists ds, to_dict_all st rs = Ok ds.
Proof.
  induction rs as [|r rs [ds IH]]; simpl; [eauto|].
  destruct (to_dict_total st r) as [d ->]. rewrite IH. eauto.
Qed.

(** C10: size_reduction_percent is 0.0 when original_size is 0 and
    success_rate is 0.0 when total_files is 0; no derived metric and no
    serialization of a result or of a batch raises ZeroDivisionError. *)
Theorem derived_metrics_guarded (st : store) (r : CleaningResult)
    (b : BatchCleaningResult) :
  (original_size r = 0 -> size_reduction_percent r = Ok 0%Q)
  /\ (total_files b = 0 -> success_rate b = Ok 0%Q)
  /\ size_reduction_percent r <> ZeroDivisionError
  /\ success_rate b <> ZeroDivisionError
  /\ (exists d, to_dict st r = Ok d)
  /\ (exists d, batch_to_dict st b = Ok d).
Proof.
  repeat split.
  - intros H. unfold size_reduction_percent. rewrite H. reflexivity.
  - intros H. unfold success_rate. rewrite H. reflexivity.
  - destruct (size_reduction_percent_total r) as [q ->]. discriminate.
  - destruct (success_rate_total b) as [q ->]. discriminate.
  - apply to_dict_total.
  - unfold batch_to_dict. destruct (success_rate_total b) as [q ->].
    destruct (to_dict_all_total st (results b)) as [ds ->]. eauto.
Qed.

End MetricFacts.

Lemma derived_metrics_guarded_witness :
  Result.original_size Examples.empty_file_result = 0
  /\ Result.total_files Result.batch_init = 0
  /\ Result.size_reduction_percent Examples.empty_file_result = Result.Ok 0%Q
  /\ Result.success_rate Result.batch_init = Result.Ok 0%Q.
Proof.
  destruct (derived_metrics_guarded Store.empty Examples.empty_file_result
              Result.batch_init) as (H1 & H2 & _).
  split; [reflexivity|]. split; [reflexivity|].
  split; [apply H1; reflexivity | apply H2; reflexivity].
Defined.

(** ** Backups (core/utils.py) *)

Section BackupFacts.
Import Fs Utils.

(** The backup name depends on the clock only through its reading to the
    second. *)
Lemma backup_path_same_second file_path backup_dir (t1 t2 : datetime) :
  year t1 = year t2 -> month t1 = month t2 -> day t1 = day t2 ->
  hour t1 = hour t2 -> minute t1 = minute t2 -> second t1 = second t2 ->
  backup_path_of file_path backup_dir t1 = backup_path_of file_path backup_dir t2.
Proof.
  intros Hy Hmo Hd Hh Hmi Hs. unfold backup_path_of, strftime.
  rewrite Hy, Hmo, Hd, Hh, Hmi, Hs. reflexivity.
Qed.

(** C8: two distinct calls of create_backup for the same file, made within
    the same second, compute the same backup path, and the second copy
    replaces the first. *)
Theorem create_backup_collides_within_a_second :
  Examples.now1 <> Examples.now2
  /\ backup_path_of "/docs/report.docx" None Examples.now1
     = "/docs/metadata_cleaner_backups/report_20240115_103045.docx"
  /\ backup_path_of "/docs/report.docx" None Examples.now2
     = "/docs/metadata_cleaner_backups/report_20240115_103045.docx"
  /\ (forall (c1 c2 : content) (fs : gmap string content),
        exists bp fs1 fs2,
          create_backup (<["/docs/report.docx" := c1]> fs) "/docs/report.docx"
                        None Examples.now1 = Some (bp, fs1)
          /\ create_backup (<["/docs/report.docx" := c2]> fs1) "/docs/report.docx"
                        None Examples.now2 = Some (bp, fs2)
          /\ fs1 !! bp = Some c1 /\ fs2 !! bp = Some c2).
Proof.
  split; [discriminate|].
  split; [vm_compute; reflexivity|].
  split; [vm_compute; reflexivity|].
  intros c1 c2 fs.
  unfold create_backup. rewrite lookup_insert_eq.
  eexists _, _, _. split; [reflexivity|].
  rewrite lookup_insert_eq.
  rewrite (backup_path_same_second _ _ Examples.now2 Examples.now1) by reflexivity.
  split; [reflexivity|].
  split; rewrite lookup_insert_eq; reflexivity.
Qed.

End BackupFacts.

(** ** Results and the cleaner that produced them (core/cleaner.py) *)

Section AliasingFacts.
Import Store Result Engine.

(** C4: the engine of the test fixture cleans a document and then, in a
    second call, meets a file that is no archive.  Before the second call
    the first result reports three metadata fields and no error; after it
    the same result reports no metadata field and the error of the second
    file: its metadata_removed dict was emptied by reset, and its errors
    list is the very list the second result carries. *)
Theorem second_call_changes_first_result :
  exists r1 r2,
  Examples.first_call.1.1 = Returned r1
  /\ Examples.second_call.1.1 = Returned r2 /\
  let w1 := Examples.first_call.2 in
  let w2 := Examples.second_call.2 in
  success r1 = true
  /\ map_to_list (get_dict (heap w1) (metadata_removed r1))
     = [("Core.creator", "Alice"); ("Core.revision", "3");
        ("Core.title", "Quarterly report")]
  /\ metadata_count (heap w1) r1 = 3%nat
  /\ get_list (heap w1) (errors r1) = []
  /\ get_dict (heap w2) (metadata_removed r1) = ∅
  /\ metadata_count (heap w2) r1 = 0%nat
  /\ get_list (heap w2) (errors r1)
     = ["Failed to clean Office document: File is not a zip file"]
  /\ errors r2 = errors r1
  /\ warnings r2 = warnings r1.
Proof.
  destruct Examples.first_call.1.1 as [r1|exn] eqn:H1; [|vm_compute in H1; discriminate].
  destruct Examples.second_call.1.1 as [r2|exn] eqn:H2; [|vm_compute in H2; discriminate].
  exists r1, r2. split; [reflexivity|]. split; [reflexivity|].
  vm_compute in H1. vm_compute in H2.
  injection H1 as <-. injection H2 as <-.
  vm_compute. repeat split; reflexivity.
Qed.

End AliasingFacts.

(** ** The manifest rewrite (cleaners/office_cleaner.py) *)

Section ManifestFacts.
Import Enums Fs Office Props.

Lemma remove_step_none l : fold_left remove_step l None = None.
Proof. induction l; simpl; auto. Qed.

(** Below a child without nested [Override] elements, [findall] finds
    nothing. *)
Lemma filter_override_nil (l : list elem) :
  forallb (fun d => negb (is_override d)) l = true ->
  filter (fun d => is_override d = true) l = [].
Proof.
  induction l as [|d l IH]; simpl; [reflexivity|].
  intros H. apply andb_true_iff in H as [Hd Hl].
  rewrite filter_cons. destruct (decide (is_override d = true)) as [E|E].
  - rewrite E in Hd. discriminate.
  - auto.
Qed.

Lemma existsb_eqb_cons_ne (j i : nat) rs :
  j <> i -> existsb (Nat.eqb j) (i :: rs) = existsb (Nat.eqb j) rs.
Proof. intros H. cbn [existsb]. apply Nat.eqb_neq in H. rewrite H. reflexivity. Qed.

Lemma existsb_eqb_cons_eq (i : nat) rs : existsb (Nat.eqb i) (i :: rs) = true.
Proof. cbn [existsb]. rewrite Nat.eqb_refl. reflexivity. Qed.

(** The positions the loop removes from a flat manifest, starting at
    position [i]. *)
Lemma fold_remove_flat cs : forall i rs,
  forallb (fun c => forallb (fun d => negb (is_override d))
                      (flat_map iter (children c))) cs = true ->
  exists rs',
    fold_left remove_step (findall_from i cs) (Some rs) = Some rs'
    /\ (forall j, (j < i)%nat -> existsb (Nat.eqb j) rs' = existsb (Nat.eqb j) rs)
    /\ (forall k c, cs !! k = Some c ->
          existsb (Nat.eqb (i + k)) rs'
          = (targeted c || existsb (Nat.eqb (i + k)) rs)%bool).
Proof.
  induction cs as [|c cs IH]; intros i rs Hflat.
  - exists rs. split; [reflexivity|]. split; [reflexivity|].
    intros k c Hk. rewrite lookup_nil in Hk. discriminate.
  - cbn [forallb] in Hflat. apply andb_true_iff in Hflat as [Hc Hcs].
    cbn [findall_from]. rewrite (filter_override_nil _ Hc).
    cbn [map app]. rewrite fold_left_app.
    set (rs1 := if targeted c then i :: rs else rs).
    assert (Hstep : fold_left remove_step
                      (if is_override c then [(Some i, c)] else []) (Some rs)
                    = Some rs1).
    { unfold rs1, targeted. destruct (is_override c); simpl; [|reflexivity].
      destruct (is_metadata_override c); reflexivity. }
    rewrite Hstep.
    destruct (IH (S i) rs1 Hcs) as (rs' & Hfold & Hlow & Hhigh).
    exists rs'. split; [exact Hfold|]. split.
    + intros j Hj. rewrite Hlow by lia.
      unfold rs1. destruct (targeted c); [|reflexivity].
      apply existsb_eqb_cons_ne. lia.
    + intros k c' Hk. destruct k as [|k].
      * cbn in Hk. inversion Hk; subst c'. rewrite Nat.add_0_r.
        rewrite Hlow by lia. unfold rs1.
        destruct (targeted c); [|reflexivity].
        rewrite existsb_eqb_cons_eq. reflexivity.
      * cbn in Hk. replace (i + S k)%nat with (S i + k)%nat by lia.
        rewrite (Hhigh k c' Hk). unfold rs1.
        destruct (targeted c); [|reflexivity].
        rewrite existsb_eqb_cons_ne by lia. reflexivity.
Qed.

Lemma keep_children_filter cs : forall i removed,
  (forall k c, cs !! k = Some c ->
     existsb (Nat.eqb (i + k)) removed = targeted c) ->
  keep_children i removed cs = List.filter (fun c => negb (targeted c)) cs.
Proof.
  induction cs as [|c cs IH]; intros i removed H; [reflexivity|].
  pose proof (H 0%nat c eq_refl) as H0. rewrite Nat.add_0_r in H0.
  cbn [keep_children List.filter]. rewrite H0.
  rewrite (IH (S i) removed).
  - destruct (targeted c); reflexivity.
  - intros k c' Hk. rewrite <- (H (S k) c' Hk).
    replace (i + S k)%nat with (S i + k)%nat by lia. reflexivity.
Qed.

(** On a flat manifest the loop does not raise, and the tree written back
    has lost exactly the entries for the three metadata parts. *)
Lemma remove_overrides_flat root :
  flat_manifest root = true ->
  remove_overrides root
  = Some (Elem (tag root) (attrib root) (text root)
               (List.filter (fun c => negb (targeted c)) (children root))).
Proof.
  intros Hflat. unfold remove_overrides, findall_override.
  destruct (fold_remove_flat (children root) 0%nat [] Hflat) as (rs' & -> & _ & Hhigh).
  rewrite (keep_children_filter (children root) 0%nat rs'); [reflexivity|].
  intros k c Hk. rewrite (Hhigh k c Hk). cbn [existsb].
  apply orb_false_r.
Qed.

End ManifestFacts.

(** ** The extracted directory and its repackaging *)

Section DirectoryFacts.
Import Enums Fs Office Props.

Lemma str_in_spec (x : string) (l : list string) : str_in x l = true <-> x ∈ l.
Proof.
  unfold str_in. rewrite existsb_exists. split.
  - intros (y & Hy & E). apply String.eqb_eq in E. subst y.
    apply list_elem_of_In. exact Hy.
  - intros H. exists x. split; [apply list_elem_of_In; exact H|apply String.eqb_refl].
Qed.

Lemma str_in_false (x : string) (l : list string) : str_in x l = false <-> x ∉ l.
Proof.
  rewrite <- str_in_spec. destruct (str_in x l).
  - split; [discriminate | intros H; exfalso; apply H; reflexivity].
  - split; [intros _ E; discriminate | reflexivity].
Qed.

(** The entry a name stands for. *)
Lemma extract_fold_notin (l : list (string * part)) : forall (m : gmap string part) n,
  n ∉ l.*1 -> fold_left (fun d e => <[e.1 := e.2]> d) l m !! n = m !! n.
Proof.
  induction l as [|[k v] l IH]; intros m n Hn; simpl; [reflexivity|].
  rewrite fmap_cons in Hn. apply not_elem_of_cons in Hn as [Hne Hn].
  rewrite IH by exact Hn. cbn in Hne |- *. apply lookup_insert_ne. congruence.
Qed.

Lemma extract_fold_in (l : list (string * part)) : forall (m : gmap string part) n p,
  NoDup l.*1 -> (n, p) ∈ l ->
  fold_left (fun d e => <[e.1 := e.2]> d) l m !! n = Some p.
Proof.
  induction l as [|[k v] l IH]; intros m n p Hnd Hin; simpl.
  - inversion Hin.
  - rewrite fmap_cons in Hnd. apply NoDup_cons in Hnd as [Hk Hnd].
    apply elem_of_cons in Hin as [E|Hin].
    + inversion E; subst k v. rewrite extract_fold_notin by exact Hk.
      simpl. apply lookup_insert_eq.
    + apply IH; assumption.
Qed.

Lemma extract_fold_is_Some (l : list (string * part)) : forall (m : gmap string part) n,
  n ∈ l.*1 \/ is_Some (m !! n) ->
  is_Some (fold_left (fun d e => <[e.1 := e.2]> d) l m !! n).
Proof.
  induction l as [|[k v] l IH]; intros m n H; simpl.
  - destruct H as [H|H]; [inversion H|exact H].
  - apply IH. rewrite fmap_cons in H. destruct H as [H|H].
    + apply elem_of_cons in H as [->|H]; [|left; exact H].
      right. simpl. rewrite lookup_insert_eq. eauto.
    + destruct (String.eqb_spec n k) as [->|Hne]; right; simpl.
      * rewrite lookup_insert_eq. eauto.
      * rewrite lookup_insert_ne by congruence. exact H.
Qed.

Lemma read_is_Some entries n : n ∈ namelist entries <-> is_Some (read entries n).
Proof.
  unfold read, NameToInfo, namelist.
  change (map fst entries) with (entries.*1). split.
  - intros H. apply extract_fold_is_Some. left. exact H.
  - intros H. destruct (decide (n ∈ entries.*1)) as [Hin|Hout]; [exact Hin|].
    rewrite extract_fold_notin in H by exact Hout.
    rewrite lookup_empty in H. destruct H; discriminate.
Qed.

(** The files found by [rglob] are the files of the directory, each
    once. *)
Section Scan.
Variable scan_rank : string -> nat.

Lemma insert_by_rank_perm x l : insert_by_rank scan_rank x l ≡ₚ x :: l.
Proof.
  induction l as [|y l IH]; cbn [insert_by_rank]; [reflexivity|].
  destruct (_ <=? _)%nat; [reflexivity|].
  rewrite IH. apply perm_swap.
Qed.

Lemma rglob_perm (d : gmap string part) : rglob scan_rank d ≡ₚ map_to_list d.
Proof.
  unfold rglob. induction (map_to_list d) as [|x l IH]; cbn [foldr]; [reflexivity|].
  rewrite insert_by_rank_perm, IH. reflexivity.
Qed.

Lemma rglob_NoDup (d : gmap string part) : NoDup (namelist (rglob scan_rank d)).
Proof.
  unfold namelist. change (map fst (rglob scan_rank d)) with ((rglob scan_rank d).*1).
  rewrite rglob_perm. apply NoDup_fst_map_to_list.
Qed.

(** Reading what was repackaged gives the files of the directory. *)
Lemma NameToInfo_rglob (d : gmap string part) : NameToInfo (rglob scan_rank d) = d.
Proof.
  apply map_eq. intros n. unfold NameToInfo.
  destruct (d !! n) as [p|] eqn:E.
  - apply extract_fold_in; [apply rglob_NoDup|].
    rewrite rglob_perm. apply elem_of_map_to_list. exact E.
  - rewrite extract_fold_notin; [apply lookup_empty|].
    rewrite rglob_perm.
    intros Hin. apply list_elem_of_fmap in Hin as ([k v] & Hk & Hin).
    simpl in Hk. subst k. apply elem_of_map_to_list in Hin. congruence.
Qed.

Lemma read_rglob (d : gmap string part) n : read (rglob scan_rank d) n = d !! n.
Proof. unfold read. rewrite NameToInfo_rglob. reflexivity. Qed.

Lemma namelist_rglob (d : gmap string part) n :
  str_in n (namelist (rglob scan_rank d)) = bool_decide (is_Some (d !! n)).
Proof.
  destruct (bool_decide_reflect (is_Some (d !! n))) as [H|H].
  - apply str_in_spec, read_is_Some. rewrite read_rglob. exact H.
  - apply str_in_false. intros Hin. apply H.
    apply read_is_Some in Hin. rewrite read_rglob in Hin. exact Hin.
Qed.

End Scan.

(** Extraction keeps regular files and directories apart. *)
Lemma elem_of_makedirs x ups dirs : x ∈ makedirs ups dirs <-> x ∈ ups \/ x ∈ dirs.
Proof.
  unfold makedirs. rewrite elem_of_app. split.
  - intros [H|H]; [left|right; exact H].
    apply list_elem_of_In, filter_In in H as [H _]. apply list_elem_of_In. exact H.
  - intros [H|H]; [|right; exact H].
    destruct (str_in x dirs) eqn:E.
    + right. apply str_in_spec. exact E.
    + left. apply list_elem_of_In, filter_In. split; [apply list_elem_of_In; exact H|].
      rewrite E. reflexivity.
Qed.






(** An archive with plain names and no entry below another extracts, and
    its files are the entries the names stand for. *)
Lemma extract_plain_fold entries :
  plain_archive entries = true ->
  forall l d,
    (forall n, n ∈ l -> n ∈ namelist entries) ->
    (forall k, is_Some (files d !! k) -> k ∈ namelist entries) ->
    (forall u, u ∈ subdirs d ->
       exists n, n ∈ namelist entries /\ u ∈ upperdirs "" (arcname n)) ->
    exists d', fold_left (extract_member entries) l (Some d) = Some d'
               /\ forall k, files d' !! k
                            = if str_in k l then read entries k else files d !! k.
Proof.
  intros Hplain. unfold plain_archive in Hplain.
  apply andb_true_iff in Hplain as [Hnames Hfree].
  rewrite forallb_forall in Hnames. rewrite forallb_forall in Hfree.
  assert (Hfree' : forall n u, n ∈ namelist entries ->
                     u ∈ upperdirs "" (arcname n) -> u ∉ namelist entries).
  { intros n u Hn Hu. apply list_elem_of_In in Hn. specialize (Hfree n Hn).
    rewrite forallb_forall in Hfree. apply list_elem_of_In in Hu.
    specialize (Hfree u Hu). apply negb_true_iff, str_in_false in Hfree. exact Hfree. }
  induction l as [|n l IH]; intros d Hl Hkeys Hdirs.
  - exists d. split; [reflexivity|]. intros k. reflexivity.
  - assert (Hn : n ∈ namelist entries) by (apply Hl; left).
    pose proof (Hnames n (proj1 (list_elem_of_In _ _) Hn)) as Hpn.
    unfold plain_name in Hpn.
    apply andb_true_iff in Hpn as [Hpn Hjoin]. apply andb_true_iff in Hpn as [Hne Hnd].
    apply negb_true_iff in Hne. apply negb_true_iff in Hnd.
    apply String.eqb_eq in Hjoin.
    destruct (proj1 (read_is_Some entries n) Hn) as [p Hp].
    assert (Hstep : extract_member entries (Some d) n
                    = Some (mkDirectory (<[n := p]> (files d))
                              (makedirs (upperdirs "" (arcname n)) (subdirs d)))).
    { unfold extract_member. rewrite Hp, Hjoin, Hnd, Hne. cbn [orb].
      assert (H1 : existsb (fun u => bool_decide (is_Some (files d !! u)))
                     (upperdirs "" (arcname n)) = false).
      { apply not_true_iff_false. intros H. apply existsb_exists in H as (u & Hu & Hs).
        apply bool_decide_eq_true in Hs. apply list_elem_of_In in Hu.
        exact (Hfree' n u Hn Hu (Hkeys u Hs)). }
      rewrite H1.
      assert (H2 : str_in n (makedirs (upperdirs "" (arcname n)) (subdirs d)) = false).
      { apply str_in_false. rewrite elem_of_makedirs. intros [Hu|Hs].
        - exact (Hfree' n n Hn Hu Hn).
        - destruct (Hdirs n Hs) as (m & Hm & Hu). exact (Hfree' m n Hm Hu Hn). }
      rewrite H2. reflexivity. }
    cbn [fold_left]. rewrite Hstep.
    destruct (IH (mkDirectory (<[n := p]> (files d))
                    (makedirs (upperdirs "" (arcname n)) (subdirs d))))
      as (d' & Hfold & Hlook).
    + intros m Hm. apply Hl. right. exact Hm.
    + cbn [files]. intros k Hk.
      destruct (String.eqb_spec k n) as [->|Hkn]; [exact Hn|].
      rewrite lookup_insert_ne in Hk by congruence. apply Hkeys. exact Hk.
    + cbn [subdirs]. intros u Hu. apply elem_of_makedirs in Hu as [Hu|Hu].
      * exists n. split; assumption.
      * apply Hdirs. exact Hu.
    + exists d'. split; [exact Hfold|].
      intros k. rewrite Hlook. cbn [files].
      unfold str_in at 2. cbn [existsb]. fold (str_in k l).
      destruct (String.eqb_spec k n) as [->|Hkn]; cbn [orb].
      * destruct (str_in n l); [reflexivity|].
        rewrite lookup_insert_eq. symmetry. exact Hp.
      * destruct (str_in k l); [reflexivity|].
        apply lookup_insert_ne. congruence.
Qed.

Lemma extractall_plain entries :
  plain_archive entries = true ->
  exists dirs, extractall entries = Some (mkDirectory (NameToInfo entries) dirs).
Proof.
  intros Hplain.
  destruct (extract_plain_fold entries Hplain (namelist entries) (mkDirectory ∅ []))
    as (d' & Hfold & Hlook).
  - auto.
  - cbn. intros k Hk. rewrite lookup_empty in Hk. destruct Hk; discriminate.
  - cbn. intros u Hu. inversion Hu.
  - exists (subdirs d'). unfold extractall. rewrite Hfold. f_equal.
    destruct d' as [fl sd]. cbn [files subdirs] in *. f_equal.
    apply map_eq. intros k. rewrite Hlook. cbn [files].
    destruct (str_in k (namelist entries)) eqn:E; [reflexivity|].
    apply str_in_false in E. rewrite lookup_empty. symmetry.
    destruct (read entries k) as [p|] eqn:Hr; [|exact Hr].
    exfalso. apply E. apply read_is_Some. eauto.
Qed.

(** The loop over the metadata files. *)
Lemma metadata_steps_none level flt fls :
  fold_left (metadata_file_step level flt) fls None = None.
Proof. induction fls; simpl; auto. Qed.

Lemma metadata_step_inv level flt d f d' :
  metadata_file_step level flt (Some d) f = Some d' ->
  subdirs d' = subdirs d
  /\ (forall n, files d' !! n
                = if String.eqb n f
                  then (if CleaningLevel_eqb level BASIC
                        then clean_xml_metadata <$> files d !! n else None)
                  else files d !! n).
Proof.
  unfold metadata_file_step. intros H.
  destruct (files d !! f) as [p|] eqn:Hp.
  - destruct (CleaningLevel_eqb level BASIC).
    + inversion H; subst d'; clear H. cbn [files subdirs]. split; [reflexivity|].
      intros n. destruct (String.eqb_spec n f) as [->|Hne].
      * rewrite lookup_insert_eq, Hp. reflexivity.
      * apply lookup_insert_ne. congruence.
    + assert (Hd' : d' = mkDirectory (delete f (files d)) (subdirs d))
        by (destruct flt; congruence).
      subst d'. cbn [files subdirs]. split; [reflexivity|].
      intros n. destruct (String.eqb_spec n f) as [->|Hne].
      * apply lookup_delete_eq.
      * apply lookup_delete_ne. congruence.
  - assert (Hd' : d' = d).
    { destruct (str_in f (subdirs d)); [|congruence].
      destruct (CleaningLevel_eqb level BASIC); congruence. }
    subst d'. split; [reflexivity|].
    intros n. destruct (String.eqb_spec n f) as [->|Hne]; [|reflexivity].
    rewrite Hp. destruct (CleaningLevel_eqb level BASIC); reflexivity.
Qed.

Lemma metadata_steps_lookup level flt fls : forall d d1 n,
  NoDup fls ->
  fold_left (metadata_file_step level flt) fls (Some d) = Some d1 ->
  files d1 !! n =
    if str_in n fls
    then (if CleaningLevel_eqb level BASIC
          then clean_xml_metadata <$> files d !! n else None)
    else files d !! n.
Proof.
  induction fls as [|f fls IH]; intros d d1 n Hnd Hfold.
  - simpl in Hfold. inversion Hfold; subst. reflexivity.
  - apply NoDup_cons in Hnd as [Hf Hnd]. cbn [fold_left] in Hfold.
    destruct (metadata_file_step level flt (Some d) f) as [d'|] eqn:Hstep;
      [|rewrite metadata_steps_none in Hfold; discriminate].
    rewrite (IH d' d1 n Hnd Hfold).
    destruct (metadata_step_inv _ _ _ _ _ Hstep) as [_ Hlook].
    unfold str_in at 2. cbn [existsb]. fold (str_in n fls).
    rewrite (Hlook n).
    destruct (String.eqb_spec n f) as [->|Hne]; cbn [orb]; [|reflexivity].
    apply str_in_false in Hf. rewrite Hf. reflexivity.
Qed.

Lemma metadata_steps_subdirs level flt fls : forall d d1,
  fold_left (metadata_file_step level flt) fls (Some d) = Some d1 ->
  subdirs d1 = subdirs d.
Proof.
  induction fls as [|f fls IH]; intros d d1 Hfold.
  - simpl in Hfold. inversion Hfold; subst. reflexivity.
  - cbn [fold_left] in Hfold.
    destruct (metadata_file_step level flt (Some d) f) as [d'|] eqn:Hstep;
      [|rewrite metadata_steps_none in Hfold; discriminate].
    rewrite (IH d' d1 Hfold).
    exact (proj1 (metadata_step_inv _ _ _ _ _ Hstep)).
Qed.

Lemma metadata_files_NoDup : NoDup metadata_files.
Proof. compute_done. Qed.

(** Only a failing [unlink] tells on the loop. *)
Lemma metadata_steps_fault level flt fls : forall acc,
  flt <> UnlinkFault ->
  fold_left (metadata_file_step level flt) fls acc
  = fold_left (metadata_file_step level NoFault) fls acc.
Proof.
  induction fls as [|f fls IH]; intros acc H; [reflexivity|].
  cbn [fold_left]. rewrite IH by exact H. f_equal.
  unfold metadata_file_step. destruct acc as [d|]; [|reflexivity].
  destruct (files d !! f); [|reflexivity].
  destruct (CleaningLevel_eqb level BASIC); [reflexivity|].
  destruct flt; try reflexivity. contradiction.
Qed.


(** Cleaning the content files and rewriting the manifest change no
    name of the directory. *)
Lemma remove_rsid_lookup rsid_sub n d m :
  remove_rsid_attributes rsid_sub n d !! m
  = if String.eqb m n then rsid_sub <$> d !! m else d !! m.
Proof.
  unfold remove_rsid_attributes. destruct (String.eqb_spec m n) as [->|Hne].
  - destruct (d !! n) as [p|] eqn:E; [apply lookup_insert_eq|rewrite E; reflexivity].
  - destruct (d !! n); [apply lookup_insert_ne; congruence|reflexivity].
Qed.

Lemma clean_content_is_Some rsid_sub ext d m :
  is_Some (clean_content_files rsid_sub d ext !! m) <-> is_Some (d !! m).
Proof.
  unfold clean_content_files. generalize (content_files ext). intros names.
  revert d. induction names as [|n names IH]; intros d; simpl; [reflexivity|].
  rewrite IH, remove_rsid_lookup.
  destruct (String.eqb m n); [|reflexivity].
  rewrite fmap_is_Some. reflexivity.
Qed.

Lemma clean_content_other rsid_sub ext d m :
  m ∉ content_files ext ->
  clean_content_files rsid_sub d ext !! m = d !! m.
Proof.
  unfold clean_content_files. generalize (content_files ext). intros names.
  revert d. induction names as [|n names IH]; intros d Hm; simpl; [reflexivity|].
  apply not_elem_of_cons in Hm as [Hne Hm].
  rewrite IH by exact Hm. rewrite remove_rsid_lookup.
  destruct (String.eqb_spec m n); [contradiction|reflexivity].
Qed.

Lemma manifest_not_content ext : "[Content_Types].xml" ∉ content_files ext.
Proof.
  unfold content_files.
  repeat match goal with |- context [if ?b then _ else _] => destruct b end;
    compute_done.
Qed.

Lemma metadata_file_not_content ext n : n ∈ metadata_files -> n ∉ content_files ext.
Proof.
  unfold metadata_files, content_files. intros Hn.
  repeat (apply elem_of_cons in Hn as [->|Hn]); [| | |inversion Hn];
    repeat match goal with |- context [if ?b then _ else _] => destruct b end;
    compute_done.
Qed.

Lemma update_content_types_other d m :
  m <> "[Content_Types].xml" -> update_content_types d !! m = d !! m.
Proof.
  intros Hne. unfold update_content_types.
  destruct (d !! "[Content_Types].xml") as [[root|b]|]; try reflexivity.
  destruct (remove_overrides root); [|reflexivity].
  apply lookup_insert_ne. congruence.
Qed.

Lemma update_content_types_is_Some d m :
  is_Some (update_content_types d !! m) <-> is_Some (d !! m).
Proof.
  destruct (String.eqb_spec m "[Content_Types].xml") as [->|Hne];
    [|rewrite update_content_types_other by exact Hne; reflexivity].
  unfold update_content_types.
  destruct (d !! "[Content_Types].xml") as [[root|b]|] eqn:E; rewrite ?E; try reflexivity.
  destruct (remove_overrides root); [|rewrite E; reflexivity].
  rewrite lookup_insert_eq. split; eauto.
Qed.

Lemma finish_dir_is_Some rsid_sub level input_path d m :
  is_Some (finish_dir rsid_sub level input_path d !! m) <-> is_Some (d !! m).
Proof.
  unfold finish_dir. rewrite update_content_types_is_Some.
  destruct (CleaningLevel_eqb level DEEP || CleaningLevel_eqb level PARANOID)%bool;
    [apply clean_content_is_Some|reflexivity].
Qed.

(** A successful [clean]: the input was an archive that extracted, the
    loop over the metadata files went through, and the output holds the
    files of the finished directory. *)
Lemma clean_ok_inv rsid_sub scan_rank level flt fs input_path output_path :
  ok (clean rsid_sub scan_rank level flt fs input_path output_path) = true ->
  exists entries d0 d1,
    fs !! input_path = Some (Zip entries)
    /\ extractall entries = Some d0
    /\ fold_left (metadata_file_step level flt) metadata_files (Some d0) = Some d1
    /\ fs_after (clean rsid_sub scan_rank level flt fs input_path output_path)
       = <[output_path := Zip (rglob scan_rank
                                 (finish_dir rsid_sub level input_path (files d1)))]> fs.
Proof.
  unfold clean, finish_dir. intros Hok.
  destruct (fs !! input_path) as [[b|entries|pd]|] eqn:Hin;
    try (destruct flt; cbn [ok fail] in Hok; discriminate).
  destruct (extractall entries) as [d0|] eqn:Hex;
    [|destruct flt; cbn [ok fail] in Hok; discriminate].
  destruct (fold_left (metadata_file_step level flt) metadata_files (Some d0))
    as [d1|] eqn:Hfold.
  2:{ destruct flt; cbn [ok fail] in Hok; rewrite ?Hfold in Hok;
        cbn [ok fail] in Hok; discriminate. }
  exists entries, d0, d1.
  split; [reflexivity|]. split; [exact Hex|]. split; [exact Hfold|].
  destruct flt; cbn [ok fail] in Hok |- *; try discriminate;
    rewrite ?Hfold in Hok |- *;
    cbn [ok fail fs_after create_office_file] in Hok |- *;
    try discriminate; try reflexivity.
  destruct (_ <? _)%nat; cbn [ok fail fs_after] in Hok |- *;
    [discriminate|reflexivity].
Qed.

End DirectoryFacts.

(** ** OfficeCleaner.clean: failures, manifest, second pass *)

Section OfficeFacts.
Import Enums Fs Office Props.

Variable rsid_sub : part -> part.
Variable scan_rank : string -> nat.

Local Abbreviation clean' := (clean rsid_sub scan_rank).

Local Ltac frame_cases :=
  repeat case_match; simplify_eq; cbn [fs_after ok] in *;
  try discriminate; try reflexivity; try assumption;
  try (rewrite lookup_insert_ne by congruence; first [reflexivity|assumption]).

(** C1 (as amended): when an office clean fails, the input file is
    unchanged whenever output_path differs from input_path; when the
    failure is any other than a write into the output archive raising or
    the removal of the scratch directory raising (scratch directory,
    reading or extracting the input, removing a metadata part, opening the
    output), no file at all has changed; and a run in which only the
    removal of the scratch directory raises has written what the run
    without failure writes. *)
Theorem office_clean_failure_frame (level : CleaningLevel) (flt : fault)
    (fs : gmap string content) (input_path output_path : string) :
  ok (clean' level flt fs input_path output_path) = false ->
  (input_path <> output_path ->
     fs_after (clean' level flt fs input_path output_path) !! input_path
     = fs !! input_path)
  /\ ((forall n, flt <> WriteFault n) -> flt <> CleanupFault ->
     fs_after (clean' level flt fs input_path output_path) = fs)
  /\ (flt = CleanupFault ->
     fs_after (clean' level flt fs input_path output_path)
     = fs_after (clean' level NoFault fs input_path output_path)).
Proof.
  intros Hfail. split; [|split].
  - intros Hne. unfold clean, fail, create_office_file in *. frame_cases.
  - intros Hw Hc. unfold clean, fail, create_office_file in *. frame_cases.
    all: exfalso; eapply Hw; reflexivity.
  - intros ->. unfold clean, fail, create_office_file in *. frame_cases.
    all: match goal with
         | H : fold_left (metadata_file_step _ CleanupFault) _ _ = _ |- _ =>
             rewrite metadata_steps_fault in H by discriminate
         end; simplify_eq; reflexivity.
Qed.

(** Whatever becomes of the run, [self.metadata_removed] is what
    [extract_metadata] found in the input. *)
Lemma clean_metadata level flt fs input_path output_path :
  metadata (clean' level flt fs input_path output_path)
  = extract_metadata fs input_path.
Proof. unfold clean, fail. repeat case_match; reflexivity. Qed.

(** An archive without the three metadata parts has no metadata to
    report. *)
Lemma extract_body_no_metadata_parts (d : gmap string part) :
  (forall n, n ∈ metadata_files -> d !! n = None) ->
  extract_body (rglob scan_rank d) = inl ∅.
Proof.
  intros Hnone. unfold extract_body.
  rewrite !namelist_rglob.
  rewrite !bool_decide_eq_false_2; [reflexivity| | |];
    (rewrite Hnone by compute_done; intros [? ?]; discriminate).
Qed.

(** The directory repackaged above the BASIC level holds none of the
    three metadata parts. *)
Lemma finish_dir_no_metadata_parts level flt input_path d d1 :
  level <> BASIC ->
  fold_left (metadata_file_step level flt) metadata_files (Some d) = Some d1 ->
  forall n, n ∈ metadata_files ->
    finish_dir rsid_sub level input_path (files d1) !! n = None.
Proof.
  intros Hlvl Hfold n Hn.
  apply eq_None_not_Some. rewrite finish_dir_is_Some.
  rewrite (metadata_steps_lookup level flt metadata_files d d1 n
             metadata_files_NoDup Hfold).
  apply str_in_spec in Hn. rewrite Hn.
  destruct level; [contradiction| |]; simpl; intros [? ?]; discriminate.
Qed.

(** Above the BASIC level, cleaning the output of a successful office
    clean again finds no metadata: the second pass reports an empty
    metadata_removed, whatever else happens to it.  (DEEP and PARANOID
    delete the three metadata parts; this is the behaviour the BASIC
    branch does not have, see [basic_second_pass_reports_metadata].) *)
Theorem office_second_pass_reports_nothing (level : CleaningLevel)
    (flt1 flt2 : fault) (fs : gmap string content)
    (input_path output_path output_path2 : string) :
  level <> BASIC ->
  ok (clean' level flt1 fs input_path output_path) = true ->
  let fs1 := fs_after (clean' level flt1 fs input_path output_path) in
  metadata (clean' level flt2 fs1 output_path output_path2) = ∅
  /\ size (metadata (clean' level flt2 fs1 output_path output_path2)) = 0%nat.
Proof.
  intros Hlvl Hok fs1.
  destruct (clean_ok_inv _ _ _ _ _ _ _ Hok) as (entries & d0 & d1 & Hin & _ & Hfold & Hfs).
  assert (Hmeta : extract_metadata fs1 output_path = ∅).
  { unfold extract_metadata, fs1. rewrite Hfs, lookup_insert_eq.
    rewrite extract_body_no_metadata_parts; [reflexivity|].
    eapply finish_dir_no_metadata_parts; eassumption. }
  rewrite clean_metadata, Hmeta. split; [reflexivity|apply map_size_empty].
Qed.

(** Names of metadata parts and names of manifest entries. *)
Lemma metadata_part_of_file n :
  n ∈ metadata_files -> ("/" +:+ n) ∈ metadata_parts.
Proof.
  unfold metadata_files. intros Hn.
  repeat (apply elem_of_cons in Hn as [->|Hn]); [| | |inversion Hn]; compute_done.
Qed.

Lemma part_named_spec c n :
  part_named c = Some n -> get (attrib c) "PartName" = "/" +:+ n.
Proof.
  unfold part_named. destruct (get (attrib c) "PartName") as [|a s]; [discriminate|].
  destruct (Ascii.eqb_spec a "/"%char) as [->|Hne].
  - intros H. inversion H; subst. reflexivity.
  - destruct a as [[] [] [] [] [] [] [] []]; try discriminate.
    contradiction.
Qed.

(** C7 (as amended): at every level, on an archive whose manifest parses
    and is flat, the rewrite removes exactly the Override entries of the
    three metadata part names and keeps every other entry, in order; and
    when every Override entry of the input manifest names a file the
    input extracts to, every Override entry of the output manifest names a
    part of the output archive. *)
Theorem manifest_rewrite_effect (level : CleaningLevel) (flt : fault)
    (fs : gmap string content) (input_path output_path : string)
    (entries : list (string * part)) (d0 : directory) (root : elem) :
  fs !! input_path = Some (Zip entries) ->
  extractall entries = Some d0 ->
  files d0 !! "[Content_Types].xml" = Some (Xml root) ->
  flat_manifest root = true ->
  ok (clean' level flt fs input_path output_path) = true ->
  exists out_entries root',
    fs_after (clean' level flt fs input_path output_path) !! output_path
    = Some (Zip out_entries)
    /\ read out_entries "[Content_Types].xml" = Some (Xml root')
    /\ children root' = List.filter (fun c => negb (targeted c)) (children root)
    /\ (manifest_consistent (files d0) root = true ->
        manifest_consistent (NameToInfo out_entries) root' = true).
Proof.
  intros Hin Hex Hman Hflat Hok.
  destruct (clean_ok_inv _ _ _ _ _ _ _ Hok)
    as (entries' & d0' & d1 & Hin' & Hex' & Hfold & Hfs).
  rewrite Hin in Hin'. inversion Hin'; subst entries'. clear Hin'.
  rewrite Hex in Hex'. inversion Hex'; subst d0'. clear Hex'.
  pose proof (metadata_steps_lookup level flt metadata_files _ d1
                "[Content_Types].xml" metadata_files_NoDup Hfold) as Hd1.
  change (str_in "[Content_Types].xml" metadata_files) with false in Hd1.
  rewrite Hman in Hd1.
  set (root' := Elem (tag root) (attrib root) (text root)
                     (List.filter (fun c => negb (targeted c)) (children root))).
  set (d3 := finish_dir rsid_sub level input_path (files d1)) in *.
  assert (Hd3 : d3 !! "[Content_Types].xml" = Some (Xml root')).
  { unfold d3, finish_dir, update_content_types.
    assert (Hd2 : (if (CleaningLevel_eqb level DEEP || CleaningLevel_eqb level PARANOID)%bool
                   then clean_content_files rsid_sub (files d1) (PyStr.suffix input_path)
                   else files d1) !! "[Content_Types].xml" = Some (Xml root)).
    { destruct (_ || _)%bool; [|exact Hd1].
      rewrite clean_content_other by apply manifest_not_content. exact Hd1. }
    rewrite Hd2, (remove_overrides_flat root Hflat).
    apply lookup_insert_eq. }
  exists (rglob scan_rank d3), root'.
  rewrite Hfs, lookup_insert_eq, read_rglob, NameToInfo_rglob.
  split; [reflexivity|]. split; [exact Hd3|]. split; [reflexivity|].
  intros Hcons.
  unfold manifest_consistent. apply forallb_forall. intros c Hc.
  simpl in Hc. apply filter_In in Hc as [Hc Hnt].
  unfold manifest_consistent in Hcons.
  rewrite forallb_forall in Hcons. specialize (Hcons c Hc).
  destruct (is_override c) eqn:Hov; [|reflexivity].
  simpl in Hcons |- *.
  destruct (part_named c) as [n|] eqn:Hn; [|discriminate].
  apply bool_decide_eq_true in Hcons. apply bool_decide_eq_true.
  apply finish_dir_is_Some.
  rewrite (metadata_steps_lookup level flt metadata_files _ d1 n
             metadata_files_NoDup Hfold).
  destruct (str_in n metadata_files) eqn:Hmf; [|exact Hcons].
  exfalso. apply str_in_spec in Hmf. apply metadata_part_of_file in Hmf.
  apply str_in_spec in Hmf.
  unfold targeted in Hnt. rewrite Hov in Hnt. simpl in Hnt.
  unfold is_metadata_override in Hnt.
  rewrite (part_named_spec c n Hn), Hmf in Hnt. discriminate.
Qed.

End OfficeFacts.

(** ** The claims above at concrete inputs *)

Section OfficeExamples.
Import Enums Fs Office Props Examples.

(** C1 as stated fails: cleaning the document in place while the second
    write into the output archive raises reports failure and leaves, where
    the original was, an archive holding the first part only. *)
Lemma office_clean_failure_overwrites_original :
  let o := clean rsid_id top_first DEEP (WriteFault 1) disk
                 "/docs/report.docx" "/docs/report.docx" in
  ok o = false
  /\ disk !! "/docs/report.docx" = Some report_docx
  /\ (exists p, fs_after o !! "/docs/report.docx" = Some (Zip [("[Content_Types].xml", p)]))
  /\ out_part (fs_after o) "/docs/report.docx" "word/document.xml" = None
  /\ fs_after o !! "/docs/report.docx" <> disk !! "/docs/report.docx".
Proof.
  vm_compute. repeat split; try reflexivity; try discriminate.
  eexists; reflexivity.
Qed.

Lemma office_clean_failure_frame_witness :
  ok (clean rsid_id top_first DEEP UnlinkFault disk
        "/docs/report.docx" "/docs/report.docx") = false
  /\ (forall n, UnlinkFault <> WriteFault n)
  /\ UnlinkFault <> CleanupFault
  /\ fs_after (clean rsid_id top_first DEEP UnlinkFault disk
                 "/docs/report.docx" "/docs/report.docx")
     = disk.
Proof.
  assert (Hfail : ok (clean rsid_id top_first DEEP UnlinkFault disk "/docs/report.docx"
                        "/docs/report.docx") = false) by (vm_compute; reflexivity).
  assert (Hflt : forall n, UnlinkFault <> WriteFault n) by discriminate.
  assert (Hc : UnlinkFault <> CleanupFault) by discriminate.
  split; [exact Hfail|]. split; [exact Hflt|]. split; [exact Hc|].
  exact (proj1 (proj2 (office_clean_failure_frame rsid_id top_first DEEP UnlinkFault disk
                         "/docs/report.docx" "/docs/report.docx" Hfail)) Hflt Hc).
Defined.

Lemma office_second_pass_reports_nothing_witness :
  DEEP <> BASIC
  /\ ok (clean rsid_id top_first DEEP NoFault disk
           "/docs/report.docx" "/docs/report.docx") = true
  /\ metadata (clean rsid_id top_first DEEP NoFault
                 (fs_after (clean rsid_id top_first DEEP NoFault disk
                              "/docs/report.docx" "/docs/report.docx"))
                 "/docs/report.docx" "/docs/report.docx") = ∅.
Proof.
  assert (Hlvl : DEEP <> BASIC) by discriminate.
  assert (Hok : ok (clean rsid_id top_first DEEP NoFault disk "/docs/report.docx"
                      "/docs/report.docx") = true) by (vm_compute; reflexivity).
  split; [exact Hlvl|]. split; [exact Hok|].
  exact (proj1 (office_second_pass_reports_nothing rsid_id top_first DEEP NoFault NoFault
                  disk "/docs/report.docx" "/docs/report.docx" "/docs/report.docx"
                  Hlvl Hok)).
Defined.

(** C7 as stated fails: at the BASIC level the core-properties part is
    kept in the output and yet its manifest entry is dropped. *)
Lemma basic_clean_drops_manifest_entry :
  let o := clean rsid_id top_first BASIC NoFault disk
                 "/docs/report.docx" "/docs/clean.docx" in
  ok o = true
  /\ out_part disk "/docs/report.docx" "[Content_Types].xml" = Some content_types_xml
  /\ is_Some (out_part (fs_after o) "/docs/clean.docx" "docProps/core.xml")
  /\ out_part (fs_after o) "/docs/clean.docx" "[Content_Types].xml"
     = Some (Xml (Elem "{http://schemas.openxmlformats.org/package/2006/content-types}Types" [] ""
         [Elem "{http://schemas.openxmlformats.org/package/2006/content-types}Default"
               [("Extension", "xml"); ("ContentType", "application/xml")] "" [];
          Elem "{http://schemas.openxmlformats.org/package/2006/content-types}Override"
               [("PartName", "/word/document.xml"); ("ContentType", "application/main+xml")]
               "" []])).
Proof. vm_compute. repeat split; try reflexivity. eexists; reflexivity. Qed.

Lemma manifest_rewrite_effect_witness :
  let root := Elem "{http://schemas.openxmlformats.org/package/2006/content-types}Types" [] ""
    [Elem "{http://schemas.openxmlformats.org/package/2006/content-types}Default"
          [("Extension", "xml"); ("ContentType", "application/xml")] "" [];
     Elem "{http://schemas.openxmlformats.org/package/2006/content-types}Override"
          [("PartName", "/word/document.xml"); ("ContentType", "application/main+xml")] "" [];
     Elem "{http://schemas.openxmlformats.org/package/2006/content-types}Override"
          [("PartName", "/docProps/core.xml"); ("ContentType", "application/core+xml")] "" []] in
  let entries := [("[Content_Types].xml", content_types_xml);
                  ("word/document.xml", document_xml);
                  ("docProps/core.xml", core_xml)] in
  let d0 := mkDirectory (NameToInfo entries) ["docProps"; "word"] in
  let o := clean rsid_id top_first DEEP NoFault disk
                 "/docs/report.docx" "/docs/clean.docx" in
  disk !! "/docs/report.docx" = Some (Zip entries)
  /\ extractall entries = Some d0
  /\ files d0 !! "[Content_Types].xml" = Some (Xml root)
  /\ flat_manifest root = true
  /\ manifest_consistent (files d0) root = true
  /\ ok o = true
  /\ exists out_entries root',
       fs_after o !! "/docs/clean.docx" = Some (Zip out_entries)
       /\ read out_entries "[Content_Types].xml" = Some (Xml root')
       /\ children root' = List.filter (fun c => negb (targeted c)) (children root)
       /\ manifest_consistent (NameToInfo out_entries) root' = true.
Proof.
  intros root entries d0 o.
  assert (H1 : disk !! "/docs/report.docx" = Some (Zip entries)) by (vm_compute; reflexivity).
  assert (H2 : extractall entries = Some d0) by (vm_compute; reflexivity).
  assert (H3 : files d0 !! "[Content_Types].xml" = Some (Xml root))
    by (vm_compute; reflexivity).
  assert (H4 : flat_manifest root = true) by (vm_compute; reflexivity).
  assert (H5 : manifest_consistent (files d0) root = true)
    by (vm_compute; reflexivity).
  assert (H6 : ok o = true) by (vm_compute; reflexivity).
  split; [exact H1|]. split; [exact H2|]. split; [exact H3|].
  split; [exact H4|]. split; [exact H5|]. split; [exact H6|].
  destruct (manifest_rewrite_effect rsid_id top_first DEEP NoFault disk "/docs/report.docx"
              "/docs/clean.docx" entries d0 root H1 H2 H3 H4 H6)
    as (out_entries & root' & Ho & Hr & Hc & Hm).
  exists out_entries, root'.
  split; [exact Ho|]. split; [exact Hr|]. split; [exact Hc|exact (Hm H5)].
Defined.

End OfficeExamples.

Section EngineExamples.
Import Store Result Engine Examples.

(** C5: the engine at the BASIC level cleans the example document in
    place twice.  Both passes succeed; the first pass left the title in
    place (it blanks creator and revision only), the second pass removes
    nothing, and yet its result lists the title in metadata_removed:
    metadata_count is 1, not 0. *)
Lemma basic_second_pass_reports_metadata :
  exists r1 r2,
  basic_first.1.1 = Returned r1
  /\ basic_second.1.1 = Returned r2
  /\ success r1 = true
  /\ success r2 = true
  /\ map_to_list (get_dict (heap basic_second.2) (metadata_removed r2))
     = [("Core.title", "Quarterly report")]
  /\ metadata_count (heap basic_second.2) r2 = 1%nat
  /\ metadata_count (heap basic_second.2) r2 <> 0%nat.
Proof.
  destruct basic_first.1.1 as [r1|exn] eqn:H1; [|vm_compute in H1; discriminate].
  destruct basic_second.1.1 as [r2|exn] eqn:H2; [|vm_compute in H2; discriminate].
  exists r1, r2. split; [reflexivity|]. split; [reflexivity|].
  vm_compute in H1. vm_compute in H2.
  injection H1 as <-. injection H2 as <-.
  vm_compute. repeat split; try reflexivity. discriminate.
Qed.

End EngineExamples.

(** ** The BASIC level (office_cleaner.py, pdf_cleaner.py) *)

Section BasicFacts.
Import Enums Fs Office Props.

(** Induction over an element tree. *)
Lemma elem_tree_ind (P : elem -> Prop) :
  (forall t a x cs, Forall P cs -> P (Elem t a x cs)) -> forall e, P e.
Proof.
  intros H. fix IH 1. intros [t a x cs]. apply H.
  induction cs as [|c cs IHcs]; constructor; [apply IH|exact IHcs].
Qed.

Lemma lower_ascii_idem c : PyStr.lower_ascii (PyStr.lower_ascii c) = PyStr.lower_ascii c.
Proof. destruct c as [[] [] [] [] [] [] [] []]; reflexivity. Qed.

Lemma lower_idem s : PyStr.lower (PyStr.lower s) = PyStr.lower s.
Proof. induction s as [|c s IH]; simpl; [reflexivity|]. rewrite lower_ascii_idem, IH. reflexivity. Qed.

(** A tag outside the lower-cased list is not on the list itself. *)
Lemma not_sensitive e :
  str_in (lower_tag e) (map PyStr.lower sensitive_tags) = false -> is_sensitive e = false.
Proof.
  intros H. unfold is_sensitive. fold (lower_tag e).
  destruct (str_in (lower_tag e) sensitive_tags) eqn:E; [|reflexivity].
  apply str_in_spec in E. apply str_in_false in H. exfalso. apply H.
  replace (lower_tag e) with (PyStr.lower (lower_tag e)) by apply lower_idem.
  apply list_elem_of_In, in_map, list_elem_of_In. exact E.
Qed.

Lemma blanked_sensitive e :
  str_in (lower_tag e) blanked_tags = true -> is_sensitive e = true.
Proof.
  intros H. unfold is_sensitive. fold (lower_tag e).
  apply str_in_spec in H. apply str_in_spec.
  unfold blanked_tags in H. unfold sensitive_tags.
  repeat (apply elem_of_cons in H as [->|H]); [..|inversion H]; compute_done.
Qed.

Lemma blank_sensitive_relates root :
  Forall2 basic_relates (iter root) (iter (blank_sensitive root)).
Proof.
  induction root as [t a x cs IH] using elem_tree_ind.
  cbn [blank_sensitive iter]. constructor.
  - unfold basic_relates. cbn [tag attrib text].
    split; [reflexivity|]. split; [reflexivity|]. split; intros H.
    + rewrite (not_sensitive _ H). reflexivity.
    + rewrite (blanked_sensitive _ H). reflexivity.
  - induction IH as [|c cs Hc _ IHcs]; cbn [map flat_map]; [constructor|].
    apply Forall2_app; assumption.
Qed.


End BasicFacts.

Section BasicExamples.
Import Enums Fs Office Props Examples.



End BasicExamples.

(** ** Batches (core/cleaner.py) *)

Section BatchRunFacts.
Import Enums Fs Store Result Utils Engine Props.

Variable st_size : content -> Z.
Variable file_hash : content -> string.
Variable rsid_sub : part -> part.
Variable scan_rank : string -> nat.
Variable foreign_clean :
  cleaner_key -> CleaningLevel -> gmap string content -> string -> string -> Office.outcome.

Local Abbreviation clean_file' :=
  (clean_file st_size file_hash rsid_sub scan_rank foreign_clean).
Local Abbreviation run_all' :=
  (run_all st_size file_hash rsid_sub scan_rank foreign_clean).











Variable completion_order : list string -> list string.
Hypothesis completion_order_perm : forall l, Permutation (completion_order l) l.


End BatchRunFacts.

Section BatchExamples.
Import Enums Fs Store Result Utils Engine Props Examples.



End BatchExamples.

(* ===================================================================== *)
(** * Further properties of the code *)
(* ===================================================================== *)

(** ** File types and dispatch (core/enums.py, core/utils.py, core/cleaner.py) *)

Section TypeFacts.
Import Enums Utils Engine.

Lemma lower_ascii_dot c : PyStr.lower_ascii c = "."%char -> c = "."%char.
Proof. destruct c as [[] [] [] [] [] [] [] []]; cbv; intros H; try discriminate; reflexivity. Qed.

Lemma lstrip_dot_non_dot c s :
  c <> "."%char -> PyStr.lstrip_dot (String c s) = String c s.
Proof.
  intros Hc. destruct c as [[] [] [] [] [] [] [] []]; try reflexivity.
  exfalso. apply Hc. reflexivity.
Qed.

Lemma lstrip_dot_dot s : PyStr.lstrip_dot (String "."%char s) = PyStr.lstrip_dot s.
Proof. reflexivity. Qed.

(** Lower-casing and stripping leading dots commute. *)
Lemma lstrip_dot_lower s :
  PyStr.lstrip_dot (PyStr.lower s) = PyStr.lower (PyStr.lstrip_dot s).
Proof.
  induction s as [|c s IH]; [reflexivity|].
  destruct (ascii_dec c "."%char) as [->|Hc].
  - exact IH.
  - rewrite (lstrip_dot_non_dot c s Hc). cbn [PyStr.lower].
    apply lstrip_dot_non_dot. intros E. apply Hc, lower_ascii_dot, E.
Qed.

Lemma lstrip_dot_idem s : PyStr.lstrip_dot (PyStr.lstrip_dot s) = PyStr.lstrip_dot s.
Proof.
  induction s as [|c s IH]; [reflexivity|].
  destruct (ascii_dec c "."%char) as [->|Hc].
  - exact IH.
  - rewrite !(lstrip_dot_non_dot c s Hc). reflexivity.
Qed.

(** Only the normal form of an extension matters. *)
Lemma from_extension_normal ext :
  from_extension (PyStr.lstrip_dot (PyStr.lower ext)) = from_extension ext.
Proof.
  unfold from_extension. f_equal.
  rewrite (lstrip_dot_lower (PyStr.lstrip_dot (PyStr.lower ext))).
  rewrite lstrip_dot_idem, <- lstrip_dot_lower, lower_idem. reflexivity.
Qed.

(** X1: from_extension is insensitive to letter case and to leading
    dots. *)
Theorem from_extension_insensitive (ext : string) :
  from_extension (PyStr.lower ext) = from_extension ext
  /\ from_extension (String "."%char ext) = from_extension ext
  /\ from_extension (PyStr.lstrip_dot ext) = from_extension ext.
Proof.
  unfold from_extension. split; [|split].
  - rewrite lower_idem. reflexivity.
  - reflexivity.
  - rewrite <- (lstrip_dot_lower ext), lstrip_dot_idem. reflexivity.
Qed.

Lemma first_with_value_found ext ts t :
  first_with_value ext ts = t -> t <> UNKNOWN -> value t = ext.
Proof.
  induction ts as [|t' ts IH]; simpl; intros H Hne; [congruence|].
  destruct (String.eqb_spec (value t') ext) as [E|_]; [congruence|auto].
Qed.

(** X2: every member is found again from its own value, and an extension
    that maps to a member other than UNKNOWN is, lower-cased and without
    leading dots, exactly that member's value. *)
Theorem from_extension_value (t : FileType) (ext : string) :
  from_extension (value t) = t
  /\ (from_extension ext = t -> t <> UNKNOWN ->
      PyStr.lstrip_dot (PyStr.lower ext) = value t).
Proof.
  split.
  - destruct t; vm_compute; reflexivity.
  - intros H Hne. symmetry. exact (first_with_value_found _ _ _ H Hne).
Qed.

(** X3: the four kind predicates are disjoint, and exactly one of them
    holds of every member but UNKNOWN, of which none holds. *)
Theorem kinds_partition (t : FileType) :
  (Nat.b2n (is_document t) + Nat.b2n (is_image t)
   + Nat.b2n (is_audio t) + Nat.b2n (is_video t))%nat
  = if FileType_eqb t UNKNOWN then 0%nat else 1%nat.
Proof. destruct t; vm_compute; reflexivity. Qed.

(** X4: a file is supported exactly when _get_cleaner finds a cleaner for
    it, so clean_file never answers a supported file with "No cleaner
    available". *)
Theorem supported_iff_cleaner (file_path : string) :
  is_supported_file file_path = true <-> is_Some (get_cleaner file_path).
Proof.
  unfold is_supported_file, get_cleaner.
  rewrite from_extension_normal.
  destruct (from_extension (PyStr.suffix file_path)); vm_compute;
    split; intros H; try reflexivity; try discriminate; eauto;
    destruct H as [? H]; discriminate.
Qed.

End TypeFacts.

Lemma from_extension_value_witness :
  Enums.from_extension ".DocX" = Enums.DOCX
  /\ Enums.DOCX <> Enums.UNKNOWN
  /\ PyStr.lstrip_dot (PyStr.lower ".DocX") = Enums.value Enums.DOCX.
Proof.
  assert (H : Enums.from_extension ".DocX" = Enums.DOCX) by (vm_compute; reflexivity).
  assert (Hne : Enums.DOCX <> Enums.UNKNOWN) by discriminate.
  split; [exact H|]. split; [exact Hne|].
  exact (proj2 (from_extension_value Enums.DOCX ".DocX") H Hne).
Defined.

Lemma supported_iff_cleaner_witness :
  Utils.is_supported_file "/docs/Report.DOCX" = true
  /\ is_Some (Engine.get_cleaner "/docs/Report.DOCX").
Proof.
  assert (H : Utils.is_supported_file "/docs/Report.DOCX" = true) by (vm_compute; reflexivity).
  split; [exact H|].
  exact (proj1 (supported_iff_cleaner "/docs/Report.DOCX") H).
Defined.

(** ** File names and backups (core/utils.py) *)

Section NameFacts.
Import Fs Utils Props.

(** X5: sanitize_filename keeps the length of the name, leaves no
    character of its class in it, changes nothing when applied again, and
    returns a name without such characters as it is. *)
Theorem sanitize_filename_spec (filename : string) :
  String.length (sanitize_filename filename) = String.length filename
  /\ unproblematic (sanitize_filename filename) = true
  /\ sanitize_filename (sanitize_filename filename) = sanitize_filename filename
  /\ (unproblematic filename = true -> sanitize_filename filename = filename).
Proof.
  unfold unproblematic.
  induction filename as [|c s (IHlen & IHun & IHidem & IHid)]; simpl.
  - split; [reflexivity|]. split; [reflexivity|]. split; [reflexivity|]. reflexivity.
  - split; [rewrite IHlen; reflexivity|].
    split; [|split].
    + rewrite IHun. destruct (is_problematic c) eqn:E; [reflexivity|].
      rewrite E. reflexivity.
    + rewrite IHidem. destruct (is_problematic c) eqn:E; [reflexivity|].
      rewrite E. reflexivity.
    + intros H. apply andb_true_iff in H as [Hc Hs].
      apply negb_true_iff in Hc. rewrite Hc, (IHid Hs). reflexivity.
Qed.

(** X6: a backup of an existing file is an exact copy under the computed
    name: the copy holds the content of the original, the original is as
    it was, and no other path has changed; a missing file gives no
    backup. *)
Theorem create_backup_fidelity (fs : gmap string content) (file_path : string)
    (backup_dir : option string) (now : datetime) :
  (forall c, fs !! file_path = Some c ->
     exists fs',
       create_backup fs file_path backup_dir now
       = Some (backup_path_of file_path backup_dir now, fs')
       /\ fs' !! backup_path_of file_path backup_dir now = Some c
       /\ fs' !! file_path = Some c
       /\ forall q, q <> backup_path_of file_path backup_dir now -> fs' !! q = fs !! q)
  /\ (fs !! file_path = None -> create_backup fs file_path backup_dir now = None).
Proof.
  split.
  - intros c Hc. unfold create_backup. rewrite Hc. eexists. split; [reflexivity|].
    split; [apply lookup_insert_eq|]. split.
    + destruct (decide (backup_path_of file_path backup_dir now = file_path)) as [E|E].
      * rewrite E. apply lookup_insert_eq.
      * rewrite lookup_insert_ne by exact E. exact Hc.
    + intros q Hq. apply lookup_insert_ne. congruence.
  - intros H. unfold create_backup. rewrite H. reflexivity.
Qed.

Lemma append_inj_l (s a b : string) : s +:+ a = s +:+ b -> a = b.
Proof. induction s as [|c s IH]; simpl; intros H; [exact H|]. inversion H. auto. Qed.

Lemma digit_inj (a b : nat) : digit a = digit b -> (a mod 10 = b mod 10)%nat.
Proof.
  unfold digit. intros H. apply (f_equal nat_of_ascii) in H.
  pose proof (Nat.mod_upper_bound a 10) as Ha.
  pose proof (Nat.mod_upper_bound b 10) as Hb.
  rewrite !nat_ascii_embedding in H by lia. lia.
Qed.

Lemma two_digits (a b : nat) :
  (a < 100 -> b < 100 -> (a / 10) mod 10 = (b / 10) mod 10 -> a mod 10 = b mod 10 -> a = b)%nat.
Proof.
  intros Ha Hb H1 H2.
  pose proof (Nat.div_mod_eq a 10). pose proof (Nat.div_mod_eq b 10).
  assert (a / 10 < 10)%nat by (apply Nat.Div0.div_lt_upper_bound; lia).
  assert (b / 10 < 10)%nat by (apply Nat.Div0.div_lt_upper_bound; lia).
  rewrite !Nat.mod_small in H1 by assumption. lia.
Qed.

Lemma four_digits (a b : nat) :
  (a / 100 < 100 -> b / 100 < 100 ->
   (a / 1000) mod 10 = (b / 1000) mod 10 -> (a / 100) mod 10 = (b / 100) mod 10 ->
   (a / 10) mod 10 = (b / 10) mod 10 -> a mod 10 = b mod 10 -> a = b)%nat.
Proof.
  intros Ha Hb H3 H2 H1 H0.
  assert (E : (a / 100 = b / 100)%nat).
  { apply two_digits; try assumption.
    rewrite !Nat.Div0.div_div. exact H3. }
  assert (E' : (a / 10 = b / 10)%nat).
  { pose proof (Nat.div_mod_eq (a / 10) 10) as Da.
    pose proof (Nat.div_mod_eq (b / 10) 10) as Db.
    rewrite !Nat.Div0.div_div in Da, Db.
    change (10 * 10)%nat with 100%nat in Da, Db. lia. }
  pose proof (Nat.div_mod_eq a 10). pose proof (Nat.div_mod_eq b 10). lia.
Qed.

(** The formatted time, character by character. *)
Lemma strftime_inj (t1 t2 : datetime) (r1 r2 : string) :
  valid_datetime t1 -> valid_datetime t2 ->
  strftime t1 +:+ r1 = strftime t2 +:+ r2 ->
  year t1 = year t2 /\ month t1 = month t2 /\ day t1 = day t2
  /\ hour t1 = hour t2 /\ minute t1 = minute t2 /\ second t1 = second t2
  /\ r1 = r2.
Proof.
  intros (Hy1 & Hmo1 & Hd1 & Hh1 & Hmi1 & Hs1) (Hy2 & Hmo2 & Hd2 & Hh2 & Hmi2 & Hs2) H.
  unfold strftime, pad4, pad2 in H. cbn [append] in H.
  inversion H as [[Y3 Y2 Y1 Y0 M1 M0 D1 D0 Hh1' Hh0' Mi1 Mi0 S1 S0 R]].
  apply digit_inj in Y3, Y2, Y1, Y0, M1, M0, D1, D0, Hh1', Hh0', Mi1, Mi0, S1, S0.
  repeat split; try assumption.
  - apply four_digits; try assumption;
      apply Nat.Div0.div_lt_upper_bound; lia.
  - apply two_digits; (assumption || lia).
  - apply two_digits; (assumption || lia).
  - apply two_digits; (assumption || lia).
  - apply two_digits; (assumption || lia).
  - apply two_digits; (assumption || lia).
Qed.

(** X7: two backups of the same file into the same directory get the
    same name only when the two clock readings agree to the second:
    backups taken in different seconds never collide. *)
Theorem backup_paths_differ_across_seconds (file_path : string)
    (backup_dir : option string) (t1 t2 : datetime) :
  valid_datetime t1 -> valid_datetime t2 ->
  backup_path_of file_path backup_dir t1 = backup_path_of file_path backup_dir t2 ->
  year t1 = year t2 /\ month t1 = month t2 /\ day t1 = day t2
  /\ hour t1 = hour t2 /\ minute t1 = minute t2 /\ second t1 = second t2.
Proof.
  intros Hv1 Hv2 H. unfold backup_path_of, PyStr.joinpath in H.
  set (d := match backup_dir with
            | Some d => d
            | None => _
            end) in H.
  assert (E : PyStr.stem file_path +:+ "_" +:+ strftime t1 +:+ PyStr.suffix file_path
              = PyStr.stem file_path +:+ "_" +:+ strftime t2 +:+ PyStr.suffix file_path).
  { destruct (String.eqb d "/").
    - exact (append_inj_l _ _ _ H).
    - apply append_inj_l in H. exact (append_inj_l "/" _ _ H). }
  apply append_inj_l in E. apply (append_inj_l "_") in E.
  destruct (strftime_inj t1 t2 _ _ Hv1 Hv2 E) as (? & ? & ? & ? & ? & ? & _).
  repeat split; assumption.
Qed.

End NameFacts.

Lemma sanitize_filename_spec_witness :
  Props.unproblematic "report_final.txt" = true
  /\ Utils.sanitize_filename "report_final.txt" = "report_final.txt".
Proof.
  assert (H : Props.unproblematic "report_final.txt" = true) by (vm_compute; reflexivity).
  split; [exact H|].
  destruct (sanitize_filename_spec "report_final.txt") as (_ & _ & _ & Hid).
  exact (Hid H).
Defined.

Lemma create_backup_fidelity_witness :
  Examples.disk !! "/docs/report.docx" = Some Examples.report_docx
  /\ exists fs',
       Utils.create_backup Examples.disk "/docs/report.docx" None Examples.now1
       = Some ("/docs/metadata_cleaner_backups/report_20240115_103045.docx", fs')
       /\ fs' !! "/docs/metadata_cleaner_backups/report_20240115_103045.docx"
          = Some Examples.report_docx.
Proof.
  assert (H : Examples.disk !! "/docs/report.docx" = Some Examples.report_docx)
    by (vm_compute; reflexivity).
  split; [exact H|].
  destruct (create_backup_fidelity Examples.disk "/docs/report.docx" None Examples.now1)
    as [Hcopy _].
  destruct (Hcopy _ H) as (fs' & Hb & Hbp & _).
  exists fs'. split; [exact Hb|exact Hbp].
Defined.

Lemma backup_paths_differ_across_seconds_witness :
  Props.valid_datetime Examples.now1
  /\ Props.valid_datetime Examples.now2
  /\ Utils.backup_path_of "/docs/report.docx" None Examples.now1
     = Utils.backup_path_of "/docs/report.docx" None Examples.now2
  /\ Utils.second Examples.now1 = Utils.second Examples.now2.
Proof.
  assert (H1 : Props.valid_datetime Examples.now1)
    by (unfold Props.valid_datetime; simpl; lia).
  assert (H2 : Props.valid_datetime Examples.now2)
    by (unfold Props.valid_datetime; simpl; lia).
  assert (H : Utils.backup_path_of "/docs/report.docx" None Examples.now1
              = Utils.backup_path_of "/docs/report.docx" None Examples.now2)
    by (vm_compute; reflexivity).
  split; [exact H1|]. split; [exact H2|]. split; [exact H|].
  destruct (backup_paths_differ_across_seconds _ _ _ _ H1 H2 H)
    as (_ & _ & _ & _ & _ & Hs).
  exact Hs.
Defined.

(** ** Rates and reports (core/result.py) *)

Section RateFacts.
Import Store Result.

Lemma percent_le_100 (a b : Z) :
  0 < b -> a <= b -> (inject_Z a / inject_Z b * 100 <= 100)%Q.
Proof.
  intros Hb Hab. destruct b as [|p|p]; try lia.
  unfold Qle, Qdiv, Qmult, Qinv, inject_Z. simpl. nia.
Qed.

Lemma percent_ge_0 (a b : Z) :
  0 < b -> (0 <= inject_Z a / inject_Z b * 100)%Q <-> 0 <= a.
Proof.
  intros Hb. destruct b as [|p|p]; try lia.
  unfold Qle, Qdiv, Qmult, Qinv, inject_Z. simpl. nia.
Qed.

Lemma n_success_range rs : 0 <= n_success rs <= Z.of_nat (length rs).
Proof.
  induction rs as [|r rs IH]; simpl length; cbn [n_success]; [lia|].
  destruct (success r); lia.
Qed.

(** X8: the success rate of a batch built by add_result is a percentage:
    it lies between 0 and 100, and it is 100 when there is at least one
    result and none has failed. *)
Theorem success_rate_is_percentage (rs : list CleaningResult) :
  exists q, success_rate (fold_results rs) = Ok q
            /\ (0 <= q)%Q /\ (q <= 100)%Q
            /\ (rs <> [] -> forallb success rs = true -> (q == 100)%Q).
Proof.
  unfold fold_results.
  destruct (fold_add_result rs batch_init) as (Ht & Hs & _).
  cbn [total_files successful batch_init] in Ht, Hs.
  pose proof (n_success_range rs) as Hr.
  unfold success_rate. rewrite Ht, Hs.
  destruct (Z.eqb_spec (0 + Z.of_nat (length rs)) 0) as [E|E].
  - exists 0%Q. split; [reflexivity|]. split; [apply Qle_refl|].
    split; [discriminate|].
    intros Hne _. destruct rs; [contradiction|simpl in E; lia].
  - rewrite truediv_nonzero by exact E.
    eexists. split; [reflexivity|]. split; [|split].
    + apply percent_ge_0; lia.
    + apply percent_le_100; lia.
    + intros _ Hall. rewrite (n_success_all rs Hall).
      replace (0 + Z.of_nat (length rs)) with (Z.of_nat (length rs)) in * by lia.
      destruct (Z.of_nat (length rs)) as [|p|p] eqn:Ep; try lia.
      unfold Qeq, Qdiv, Qmult, Qinv, inject_Z. simpl. nia.
Qed.

(** X9: for a file that was not empty and an output of non-negative size,
    the size reduction is at most 100 percent, and it is negative exactly
    when the output is larger than the input. *)
Theorem size_reduction_percent_range (r : CleaningResult) :
  0 < original_size r -> 0 <= cleaned_size r ->
  exists q, size_reduction_percent r = Ok q
            /\ (q <= 100)%Q
            /\ ((0 <= q)%Q <-> cleaned_size r <= original_size r).
Proof.
  intros Ho Hc. unfold size_reduction_percent.
  destruct (Z.eqb_spec (original_size r) 0) as [E|E]; [lia|].
  rewrite truediv_nonzero by exact E.
  eexists. split; [reflexivity|]. split.
  - apply percent_le_100; unfold size_reduction; lia.
  - rewrite percent_ge_0 by exact Ho. unfold size_reduction. lia.
Qed.

Lemma to_dict_all_paths st rs ds :
  to_dict_all st rs = Ok ds ->
  map d_file_path ds = map file_path rs
  /\ Forall (fun d => d_metadata_count d = size (d_metadata_removed d)
                      /\ d_size_reduction d = d_original_size d - d_cleaned_size d) ds.
Proof.
  revert ds. induction rs as [|r rs IH]; intros ds H; simpl in H.
  - inversion H; subst. split; [reflexivity|constructor].
  - destruct (to_dict st r) as [d|] eqn:Hd; [|discriminate].
    destruct (to_dict_all st rs) as [ds'|] eqn:Hds; [|discriminate].
    inversion H; subst ds. destruct (IH ds' eq_refl) as [IHp IHf].
    unfold to_dict in Hd.
    destruct (size_reduction_percent r); [|discriminate].
    inversion Hd; subst d. split.
    + simpl. rewrite IHp. reflexivity.
    + constructor; [|exact IHf]. split; reflexivity.
Qed.

(** X10: the report of a batch built by add_result lists the results in
    the order in which they were added, one entry per result, with
    total_files equal to their number and to successful + failed; in every
    entry metadata_count is the size of metadata_removed and
    size_reduction is original_size - cleaned_size. *)
Theorem batch_report_lists_results (st : store) (rs : list CleaningResult) :
  exists d, batch_to_dict st (fold_results rs) = Ok d
            /\ map d_file_path (bd_results d) = map file_path rs
            /\ bd_total_files d = Z.of_nat (length (bd_results d))
            /\ bd_successful d + bd_failed d = bd_total_files d
            /\ Forall (fun e => d_metadata_count e = size (d_metadata_removed e)
                                /\ d_size_reduction e = d_original_size e - d_cleaned_size e)
                      (bd_results d).
Proof.
  unfold batch_to_dict.
  destruct (success_rate_total (fold_results rs)) as [q ->].
  destruct (to_dict_all_total st (results (fold_results rs))) as [ds Hds].
  rewrite Hds. eexists. split; [reflexivity|].
  cbn [bd_results bd_total_files bd_successful bd_failed].
  unfold fold_results in *.
  destruct (fold_add_result rs batch_init) as (Ht & Hs & Hf & _ & Hr & _).
  cbn [total_files successful failed results batch_init app] in Ht, Hs, Hf, Hr.
  rewrite Hr in Hds. destruct (to_dict_all_paths st rs ds Hds) as [Hp Hall].
  split; [exact Hp|]. split; [|split; [|exact Hall]].
  - rewrite Ht. rewrite <- (length_map d_file_path ds), Hp, length_map. lia.
  - rewrite Ht, Hs, Hf. pose proof (n_success_failure rs). lia.
Qed.

End RateFacts.

Lemma success_rate_is_percentage_witness :
  Examples.five_valid <> []
  /\ forallb Result.success Examples.five_valid = true
  /\ exists q, Result.success_rate (Result.fold_results Examples.five_valid) = Result.Ok q
               /\ (q == 100)%Q.
Proof.
  assert (Hne : Examples.five_valid <> []) by discriminate.
  assert (Hall : forallb Result.success Examples.five_valid = true) by reflexivity.
  split; [exact Hne|]. split; [exact Hall|].
  destruct (success_rate_is_percentage Examples.five_valid) as (q & Hq & _ & _ & H100).
  exists q. split; [exact Hq|exact (H100 Hne Hall)].
Defined.

Lemma size_reduction_percent_range_witness :
  0 < Result.original_size (Examples.result_of "d.png" true 50 60)
  /\ 0 <= Result.cleaned_size (Examples.result_of "d.png" true 50 60)
  /\ exists q, Result.size_reduction_percent (Examples.result_of "d.png" true 50 60)
               = Result.Ok q /\ (q <= 100)%Q.
Proof.
  assert (Ho : 0 < Result.original_size (Examples.result_of "d.png" true 50 60))
    by (simpl; lia).
  assert (Hc : 0 <= Result.cleaned_size (Examples.result_of "d.png" true 50 60))
    by (simpl; lia).
  split; [exact Ho|]. split; [exact Hc|].
  destruct (size_reduction_percent_range _ Ho Hc) as (q & Hq & Hle & _).
  exists q. split; [exact Hq|exact Hle].
Defined.

(** ** More on the office cleaner (cleaners/office_cleaner.py) *)

Section OfficeMoreFacts.
Import Enums Fs Office Props.

Variable rsid_sub : part -> part.
Variable scan_rank : string -> nat.

Lemma take_length n s : (String.length (PyStr.take n s) <= n)%nat.
Proof.
  revert s. induction n as [|n IH]; intros [|c s]; simpl; try lia.
  specialize (IH s). lia.
Qed.

Lemma collect_reported (pre : string) root (m : gmap string string) :
  (forall x v, (String.length v <= 100)%nat -> reported (pre +:+ x) v) ->
  map_Forall reported m -> map_Forall reported (collect pre root m).
Proof.
  intros Hpre. unfold collect. generalize (iter root). intros l. revert m.
  induction l as [|e l IH]; intros m Hm; cbn [fold_left]; [exact Hm|].
  apply IH. destruct (_ && _)%bool; [|exact Hm].
  apply map_Forall_insert_2; [|exact Hm].
  apply Hpre, take_length.
Qed.

Lemma reported_core x v : (String.length v <= 100)%nat -> reported ("Core." +:+ x) v.
Proof. intros H. split; [exact H|]. left. eauto. Qed.

Lemma reported_app x v : (String.length v <= 100)%nat -> reported ("App." +:+ x) v.
Proof. intros H. split; [exact H|]. right. left. eauto. Qed.

(** X11: extract_metadata never raises and reports nothing for a path
    that holds no zip archive; every entry it reports has a key that
    starts with "Core." or "App." or is "Custom", and a value of at most
    100 characters. *)
Theorem extract_metadata_reports (fs : gmap string content) (file_path : string) :
  map_Forall reported (extract_metadata fs file_path)
  /\ (is_archive fs file_path = false -> extract_metadata fs file_path = ∅).
Proof.
  split.
  - unfold extract_metadata.
    destruct (fs !! file_path) as [[b|entries|d]|]; try apply map_Forall_empty.
    assert (H : match extract_body entries with
                | inl m | inr m => map_Forall reported m
                end).
    { unfold extract_body.
      assert (H0 : map_Forall reported (∅ : gmap string string)) by apply map_Forall_empty.
      assert (Hc : forall root, map_Forall reported (collect "Core." root ∅)).
      { intros root. apply collect_reported; auto using reported_core. }
      destruct (str_in "docProps/core.xml" (namelist entries)).
      - destruct (read entries "docProps/core.xml") as [[root|b]|]; try exact H0.
        destruct (str_in "docProps/app.xml" (namelist entries)).
        + destruct (read entries "docProps/app.xml") as [[root'|b]|]; try apply Hc.
          assert (Ha : map_Forall reported (collect "App." root' (collect "Core." root ∅))).
          { apply collect_reported; auto using reported_app. }
          destruct (str_in "docProps/custom.xml" (namelist entries)); [|exact Ha].
          apply map_Forall_insert_2; [|exact Ha].
          split; [simpl; lia|]. right. right. reflexivity.
        + destruct (str_in "docProps/custom.xml" (namelist entries)); [|apply Hc].
          apply map_Forall_insert_2; [|apply Hc].
          split; [simpl; lia|]. right. right. reflexivity.
      - destruct (str_in "docProps/app.xml" (namelist entries)).
        + destruct (read entries "docProps/app.xml") as [[root'|b]|]; try exact H0.
          assert (Ha : map_Forall reported (collect "App." root' ∅)).
          { apply collect_reported; auto using reported_app. }
          destruct (str_in "docProps/custom.xml" (namelist entries)); [|exact Ha].
          apply map_Forall_insert_2; [|exact Ha].
          split; [simpl; lia|]. right. right. reflexivity.
        + destruct (str_in "docProps/custom.xml" (namelist entries)); [|exact H0].
          apply map_Forall_insert_2; [|exact H0].
          split; [simpl; lia|]. right. right. reflexivity. }
    destruct (extract_body entries); exact H.
  - unfold is_archive, extract_metadata.
    destruct (fs !! file_path) as [[b|entries|d]|]; try reflexivity. discriminate.
Qed.



(** X14: after a successful clean above the BASIC level the output
    archive has no entry named docProps/core.xml, docProps/app.xml or
    docProps/custom.xml, and no name occurs twice in it. *)
Theorem deep_output_without_metadata_parts (level : CleaningLevel) (flt : fault)
    (fs : gmap string content) (input_path output_path : string) :
  level <> BASIC ->
  ok (clean rsid_sub scan_rank level flt fs input_path output_path) = true ->
  exists out_entries,
    fs_after (clean rsid_sub scan_rank level flt fs input_path output_path)
      !! output_path
    = Some (Zip out_entries)
    /\ NoDup (namelist out_entries)
    /\ forall n, n ∈ metadata_files -> n ∉ namelist out_entries.
Proof.
  intros Hlvl Hok.
  destruct (clean_ok_inv _ _ _ _ _ _ _ Hok)
    as (entries & d0 & d1 & Hin & _ & Hfold & Hfs).
  exists (rglob scan_rank (finish_dir rsid_sub level input_path (files d1))).
  rewrite Hfs, lookup_insert_eq. split; [reflexivity|]. split.
  - apply rglob_NoDup.
  - intros n Hn. apply str_in_false. rewrite namelist_rglob.
    apply bool_decide_eq_false_2.
    rewrite (finish_dir_no_metadata_parts rsid_sub level flt input_path _ d1
               Hlvl Hfold n Hn).
    intros [? ?]; discriminate.
Qed.

(** X15: a successful clean, at any level, carries over unchanged every
    file the archive extracts to that is neither one of the three
    metadata parts, nor the manifest, nor a content file of the input's
    extension, and the output holds no part that is not a file the
    archive extracts to.  For an archive whose entry names are plain,
    none lying below another, these files are the entries of the
    archive. *)
Theorem office_clean_preserves_other_parts (level : CleaningLevel) (flt : fault)
    (fs : gmap string content) (input_path output_path : string)
    (entries : list (string * part)) (d0 : directory) :
  fs !! input_path = Some (Zip entries) ->
  extractall entries = Some d0 ->
  ok (clean rsid_sub scan_rank level flt fs input_path output_path) = true ->
  exists out_entries,
    fs_after (clean rsid_sub scan_rank level flt fs input_path output_path)
      !! output_path
    = Some (Zip out_entries)
    /\ (forall n, n ∉ metadata_files ->
                  n ∉ content_files (PyStr.suffix input_path) ->
                  n <> "[Content_Types].xml" ->
                  read out_entries n = files d0 !! n)
    /\ (forall n, is_Some (read out_entries n) -> is_Some (files d0 !! n))
    /\ (plain_archive entries = true -> forall n, files d0 !! n = read entries n).
Proof.
  intros Hin Hex Hok.
  destruct (clean_ok_inv _ _ _ _ _ _ _ Hok)
    as (entries' & d0' & d1 & Hin' & Hex' & Hfold & Hfs).
  rewrite Hin in Hin'. inversion Hin'; subst entries'. clear Hin'.
  rewrite Hex in Hex'. inversion Hex'; subst d0'. clear Hex'.
  exists (rglob scan_rank (finish_dir rsid_sub level input_path (files d1))).
  rewrite Hfs, lookup_insert_eq. split; [reflexivity|].
  split; [|split].
  - intros n Hmeta Hcont Hman. rewrite read_rglob. unfold finish_dir.
    rewrite update_content_types_other by exact Hman.
    assert (Hd1 : files d1 !! n = files d0 !! n).
    { rewrite (metadata_steps_lookup level flt metadata_files _ d1 n
                 metadata_files_NoDup Hfold).
      apply str_in_false in Hmeta. rewrite Hmeta. reflexivity. }
    destruct (_ || _)%bool; [|exact Hd1].
    rewrite clean_content_other by exact Hcont. exact Hd1.
  - intros n Hn. rewrite read_rglob in Hn. apply finish_dir_is_Some in Hn.
    rewrite (metadata_steps_lookup level flt metadata_files _ d1 n
               metadata_files_NoDup Hfold) in Hn.
    destruct (str_in n metadata_files); [|exact Hn].
    destruct (CleaningLevel_eqb level BASIC); [|destruct Hn; discriminate].
    apply fmap_is_Some in Hn. exact Hn.
  - intros Hplain n. destruct (extractall_plain entries Hplain) as [dirs Hd].
    rewrite Hex in Hd. inversion Hd; subst d0. reflexivity.
Qed.

End OfficeMoreFacts.

Section OfficeXmlFacts.
Import Enums Fs Office Props.

Lemma is_sensitive_blank e : is_sensitive (blank_sensitive e) = is_sensitive e.
Proof. destruct e as [t a x cs]. reflexivity. Qed.

Lemma blank_sensitive_idem e : blank_sensitive (blank_sensitive e) = blank_sensitive e.
Proof.
  induction e as [t a x cs IH] using elem_tree_ind.
  cbn [blank_sensitive]. f_equal.
  - change (is_sensitive (Elem t a (if is_sensitive (Elem t a x cs) then "" else x)
                               (map blank_sensitive cs)))
      with (is_sensitive (Elem t a x cs)).
    destruct (is_sensitive (Elem t a x cs)); reflexivity.
  - rewrite map_map. induction IH as [|c cs Hc _ IHcs]; [reflexivity|].
    cbn [map]. rewrite Hc, IHcs. reflexivity.
Qed.

Lemma blank_sensitive_size e : length (iter (blank_sensitive e)) = length (iter e).
Proof.
  pose proof (blank_sensitive_relates e) as H.
  symmetry. exact (Forall2_length _ _ _ H).
Qed.

(** X16: blanking the sensitive fields of a metadata part a second time
    changes nothing more, and it neither adds nor removes an element; a
    part that is no XML is left as it is. *)
Theorem clean_xml_metadata_idempotent (p : part) :
  clean_xml_metadata (clean_xml_metadata p) = clean_xml_metadata p
  /\ match p, clean_xml_metadata p with
     | Xml root, Xml root' => length (iter root') = length (iter root)
     | Blob b, Blob b' => b' = b
     | _, _ => False
     end.
Proof.
  destruct p as [root|b]; simpl.
  - split; [rewrite blank_sensitive_idem; reflexivity|apply blank_sensitive_size].
  - split; reflexivity.
Qed.

(** A lower-cased string differs from every string with a capital. *)
Lemma lower_differs (s t : string) : PyStr.lower t <> t -> PyStr.lower s <> t.
Proof.
  intros Ht E. apply Ht. rewrite <- E. apply lower_idem.
Qed.

(** X17: an element is blanked at the BASIC level exactly when its local
    tag, lower-cased, is creator, created, modified, company, manager or
    revision.  The entries lastModifiedBy and lastPrinted of the list are
    compared with a lower-cased tag and so never match: elements of these
    two tags keep their text. *)
Theorem is_sensitive_exactly (e : elem) :
  is_sensitive e = str_in (lower_tag e) blanked_tags
  /\ (local_name (tag e) = "lastModifiedBy" \/ local_name (tag e) = "lastPrinted" ->
      is_sensitive e = false /\ text (blank_sensitive e) = text e).
Proof.
  assert (Hmain : is_sensitive e = str_in (lower_tag e) blanked_tags).
  { unfold is_sensitive, sensitive_tags, blanked_tags, str_in. fold (lower_tag e).
    cbn [existsb].
    assert (H1 : String.eqb (lower_tag e) "lastModifiedBy" = false).
    { apply String.eqb_neq, lower_differs. discriminate. }
    assert (H2 : String.eqb (lower_tag e) "lastPrinted" = false).
    { apply String.eqb_neq, lower_differs. discriminate. }
    rewrite H1, H2. cbn [orb].
    repeat match goal with
           | |- context [String.eqb ?a ?b] => destruct (String.eqb a b)
           end; reflexivity. }
  split; [exact Hmain|].
  intros Htag.
  assert (Hs : is_sensitive e = false).
  { rewrite Hmain. unfold lower_tag. destruct Htag as [-> | ->]; vm_compute; reflexivity. }
  split; [exact Hs|].
  destruct e as [t a x cs]. cbn [blank_sensitive text]. rewrite Hs. reflexivity.
Qed.

Lemma remove_step_absorbs l : fold_left remove_step l None = None.
Proof. induction l; simpl; auto. Qed.

Lemma remove_step_nested l d acc :
  (None, d) ∈ l -> is_metadata_override d = true ->
  fold_left remove_step l acc = None.
Proof.
  intros Hin Hd. revert acc.
  induction l as [|o l IH]; intros acc; [inversion Hin|].
  apply elem_of_cons in Hin as [<-|Hin].
  - cbn [fold_left]. unfold remove_step at 2. cbn [fst snd]. rewrite Hd.
    destruct acc; apply remove_step_absorbs.
  - cbn [fold_left]. apply IH. exact Hin.
Qed.

Lemma findall_from_nested cs : forall i c d,
  c ∈ cs -> d ∈ flat_map iter (children c) -> is_override d = true ->
  (None, d) ∈ findall_from i cs.
Proof.
  induction cs as [|c' cs IH]; intros i c d Hc Hd Ho; [inversion Hc|].
  cbn [findall_from]. apply elem_of_cons in Hc as [->|Hc].
  - apply elem_of_app. right. apply elem_of_app. left.
    apply list_elem_of_fmap. exists d. split; [reflexivity|].
    apply list_elem_of_filter. split; assumption.
  - apply elem_of_app. right. apply elem_of_app. right. eauto.
Qed.

(** X18: when an Override entry for a metadata part lies deeper than the
    children of the manifest's root, the removal raises and nothing is
    written back: the directory, manifest included, stays as it was. *)
Theorem nested_override_keeps_manifest (d : gmap string part) (root c e : elem) :
  d !! "[Content_Types].xml" = Some (Xml root) ->
  c ∈ children root -> e ∈ flat_map iter (children c) ->
  targeted e = true ->
  remove_overrides root = None /\ update_content_types d = d.
Proof.
  intros Hd Hc He Ht. unfold targeted in Ht. apply andb_true_iff in Ht as [Ho Hm].
  assert (Hr : remove_overrides root = None).
  { unfold remove_overrides, findall_override.
    rewrite (remove_step_nested _ e (Some [])); [reflexivity| |exact Hm].
    eapply findall_from_nested; eassumption. }
  split; [exact Hr|].
  unfold update_content_types. rewrite Hd, Hr. reflexivity.
Qed.

End OfficeXmlFacts.

(** ** The PDF cleaner (cleaners/pdf_cleaner.py) *)

Section PdfFacts.
Import Enums Fs Pdf Props.

(** X19: cleaning a PDF document a second time at the same level changes
    nothing more, and a higher level applied after a lower one gives what
    the higher level alone gives. *)
Theorem pdf_clean_doc_composes (d : pdf) :
  (forall level, clean_doc level (clean_doc level d) = clean_doc level d)
  /\ clean_doc DEEP (clean_doc BASIC d) = clean_doc DEEP d
  /\ clean_doc PARANOID (clean_doc BASIC d) = clean_doc PARANOID d
  /\ clean_doc PARANOID (clean_doc DEEP d) = clean_doc PARANOID d.
Proof.
  destruct d as [di xm ti rn js ef pl oc pg li].
  split; [intros []; cbv; destruct rn; reflexivity|].
  repeat split; cbv; destruct rn; reflexivity.
Qed.

(** [extract_metadata] reports the trailer entry for every document:
    reading [pdf.docinfo] has put it there. *)
Lemma extract_doc_trailer (d : pdf) : extract_doc d !! "Trailer.Info" = Some "Present".
Proof.
  unfold extract_doc. cbn [read_docinfo trailer_info root_names names_javascript].
  destruct (root_names d && names_javascript d)%bool.
  - rewrite lookup_insert_ne by discriminate. apply lookup_insert_eq.
  - apply lookup_insert_eq.
Qed.

(** X20: what a second pass finds in a cleaned PDF document.  Reading
    pdf.docinfo puts an empty /Info into the trailer before the trailer is
    tested, so Trailer.Info is reported for every document that opens and
    the second pass is never empty: it finds Trailer.Info alone above the
    BASIC level, and at BASIC also the JavaScript entry when the document
    has one, because BASIC leaves it in place.  So for a PDF cleaned to
    another path. *)
Theorem pdf_second_pass (level : CleaningLevel) (d : pdf) :
  extract_doc (clean_doc level d)
  = (if (CleaningLevel_eqb level BASIC && root_names d && names_javascript d)%bool
     then <["JavaScript" := "Present"]> {["Trailer.Info" := "Present"]}
     else {["Trailer.Info" := "Present"]})
  /\ extract_doc (clean_doc level d) <> ∅
  /\ (forall fs input_path output_path,
        fs !! input_path = Some (PdfDoc d) -> output_path <> input_path ->
        extract_metadata (fs_after (clean level fs input_path output_path)) output_path
        = extract_doc (clean_doc level d)).
Proof.
  split; [|split].
  - destruct d as [di xm ti rn js ef pl oc pg li].
    destruct level, rn, js; reflexivity.
  - intros H. pose proof (extract_doc_trailer (clean_doc level d)) as Ht.
    rewrite H, lookup_empty in Ht. discriminate.
  - intros fs input_path output_path Hin Hne. unfold clean, extract_metadata at 1.
    rewrite Hin. apply String.eqb_neq in Hne. rewrite Hne. cbn [fs_after].
    rewrite lookup_insert_eq. reflexivity.
Qed.


End PdfFacts.

(** ** More on the engine (core/cleaner.py) *)

Section EngineMoreFacts.
Import Enums Fs Store Result Utils Engine Props.

Variable st_size : content -> Z.
Variable file_hash : content -> string.
Variable rsid_sub : part -> part.
Variable scan_rank : string -> nat.
Variable foreign_clean :
  cleaner_key -> CleaningLevel -> gmap string content -> string -> string -> Office.outcome.

Local Abbreviation clean_file' :=
  (clean_file st_size file_hash rsid_sub scan_rank foreign_clean).
Local Abbreviation cleaner_clean' := (cleaner_clean rsid_sub scan_rank foreign_clean).
Local Abbreviation run_all' :=
  (run_all st_size file_hash rsid_sub scan_rank foreign_clean).

Lemma failure_result_rejected mc w e p size msg :
  rejected mc w (let '(r, w') := failure_result w e p size msg in (Returned r, mc, w'))
           p size msg.
Proof.
  unfold rejected, failure_result, new_dict, new_list, get_list, get_dict.
  cbn -[lookup insert]. eexists. split; [reflexivity|].
  cbn -[lookup insert].
  repeat split.
  - rewrite lookup_insert_ne by lia. rewrite lookup_insert_eq. reflexivity.
  - rewrite lookup_insert_eq. reflexivity.
  - rewrite lookup_insert_eq. reflexivity.
  - apply lookup_insert_ne. lia.
  - rewrite !lookup_insert_ne by lia. reflexivity.
Qed.

Lemma exists_spec (fs : gmap string content) p :
  exists_ fs p = true <-> is_Some (fs !! p).
Proof. unfold exists_. apply bool_decide_eq_true. Qed.

Lemma exists_false (fs : gmap string content) p :
  exists_ fs p = false <-> fs !! p = None.
Proof.
  unfold exists_. rewrite bool_decide_eq_false, eq_None_not_Some. reflexivity.
Qed.

(** X22: a path that does not exist is rejected at once: clean_file
    returns a failed result with sizes 0, no backup path and the single
    error "File not found: <path>"; no backup is attempted, no file
    changes and no cleaner is touched. *)
Theorem clean_file_missing (mc : MetadataCleaner) (e : env) (w : world)
    (file_path : string) (output_path : option string) :
  fs w !! file_path = None ->
  rejected mc w (clean_file' mc e w file_path output_path) file_path 0
           ("File not found: " +:+ file_path).
Proof.
  intros H. apply exists_false in H. unfold clean_file. rewrite H. cbn [negb].
  apply failure_result_rejected.
Qed.

(** X23: an existing file of an unsupported type is rejected before any
    backup or cleaning: the result is a failure carrying the file's size
    and the single error "Unsupported file type: <suffix>", and nothing
    has changed. *)
Theorem clean_file_unsupported_rejected (mc : MetadataCleaner) (e : env) (w : world)
    (file_path : string) (output_path : option string) :
  is_Some (fs w !! file_path) ->
  is_supported_file file_path = false ->
  rejected mc w (clean_file' mc e w file_path output_path) file_path
           (get_file_size st_size (fs w) file_path)
           ("Unsupported file type: " +:+ PyStr.suffix file_path).
Proof.
  intros Hex Hsup. apply exists_spec in Hex. unfold clean_file.
  rewrite Hex, Hsup. cbn [negb].
  apply failure_result_rejected.
Qed.










Variable completion_order : list string -> list string.
Hypothesis completion_order_perm : forall l, Permutation (completion_order l) l.




End EngineMoreFacts.

(** ** The further properties at concrete inputs *)

Section MoreExamples.
Import Enums Fs Store Result Utils Engine Props Examples.

Lemma extract_metadata_reports_witness :
  is_archive disk "/docs/broken.docx" = false
  /\ Office.extract_metadata disk "/docs/broken.docx" = ∅.
Proof.
  assert (H : is_archive disk "/docs/broken.docx" = false) by (vm_compute; reflexivity).
  split; [exact H|].
  exact (proj2 (extract_metadata_reports disk "/docs/broken.docx") H).
Defined.



(** Zip archives on which clean fails without any failure of the
    environment: an entry below the path of another entry, and, above the
    BASIC level, an entry below the path of a metadata part. *)
Example archives_that_do_not_clean :
  is_archive clash_disk "/docs/clash.docx" = true
  /\ Office.extractall [("word", Blob "x"); ("word/document.xml", document_xml)] = None
  /\ Office.ok (Office.clean rsid_id top_first BASIC Office.NoFault clash_disk
                  "/docs/clash.docx" "/docs/out.docx") = false
  /\ is_archive clash_disk "/docs/below.docx" = true
  /\ Office.ok (Office.clean rsid_id top_first BASIC Office.NoFault clash_disk
                  "/docs/below.docx" "/docs/out.docx") = true
  /\ Office.ok (Office.clean rsid_id top_first DEEP Office.NoFault clash_disk
                  "/docs/below.docx" "/docs/out.docx") = false.
Proof. vm_compute. repeat split; reflexivity. Qed.

(** An archive whose names are not plain: a directory entry is not
    repackaged, and a name with a leading slash is written back without
    it. *)
Example names_are_normalised :
  let o := Office.clean rsid_id top_first BASIC Office.NoFault clash_disk
             "/docs/odd.docx" "/docs/out.docx" in
  Office.ok o = true
  /\ exists out_entries,
       Office.fs_after o !! "/docs/out.docx" = Some (Zip out_entries)
       /\ Permutation (Office.namelist out_entries)
                      ["docProps/core.xml"; "word/document.xml"].
Proof.
  vm_compute. split; [reflexivity|]. eexists. split; [reflexivity|].
  apply perm_swap.
Qed.

Lemma deep_output_without_metadata_parts_witness :
  DEEP <> BASIC
  /\ Office.ok (Office.clean rsid_id top_first DEEP Office.NoFault disk
                  "/docs/report.docx" "/docs/clean.docx") = true
  /\ exists out_entries,
       Office.fs_after (Office.clean rsid_id top_first DEEP Office.NoFault disk
                          "/docs/report.docx" "/docs/clean.docx") !! "/docs/clean.docx"
       = Some (Zip out_entries)
       /\ "docProps/core.xml" ∉ Office.namelist out_entries.
Proof.
  assert (Hl : DEEP <> BASIC) by discriminate.
  assert (Hok : Office.ok (Office.clean rsid_id top_first DEEP Office.NoFault disk
                             "/docs/report.docx" "/docs/clean.docx") = true)
    by (vm_compute; reflexivity).
  split; [exact Hl|]. split; [exact Hok|].
  destruct (deep_output_without_metadata_parts rsid_id top_first DEEP Office.NoFault disk
              "/docs/report.docx" "/docs/clean.docx" Hl Hok) as (es & Hes & _ & Hno).
  exists es. split; [exact Hes|]. apply Hno. compute_done.
Defined.

Lemma office_clean_preserves_other_parts_witness :
  let entries := [("[Content_Types].xml", content_types_xml);
                  ("word/document.xml", document_xml);
                  ("docProps/core.xml", core_xml)] in
  let d0 := Office.mkDirectory (Office.NameToInfo entries) ["docProps"; "word"] in
  disk !! "/docs/report.docx" = Some (Zip entries)
  /\ Office.extractall entries = Some d0
  /\ Office.ok (Office.clean rsid_id top_first PARANOID Office.NoFault disk
                  "/docs/report.docx" "/docs/clean.docx") = true
  /\ plain_archive entries = true
  /\ exists out_entries,
       Office.fs_after (Office.clean rsid_id top_first PARANOID Office.NoFault disk
                          "/docs/report.docx" "/docs/clean.docx") !! "/docs/clean.docx"
       = Some (Zip out_entries)
       /\ (forall n, is_Some (Office.read out_entries n) ->
                     is_Some (Office.files d0 !! n))
       /\ forall n, Office.files d0 !! n = Office.read entries n.
Proof.
  intros entries d0.
  assert (Hin : disk !! "/docs/report.docx" = Some (Zip entries))
    by (vm_compute; reflexivity).
  assert (Hex : Office.extractall entries = Some d0) by (vm_compute; reflexivity).
  assert (Hok : Office.ok (Office.clean rsid_id top_first PARANOID Office.NoFault disk
                             "/docs/report.docx" "/docs/clean.docx") = true)
    by (vm_compute; reflexivity).
  assert (Hplain : plain_archive entries = true) by (vm_compute; reflexivity).
  split; [exact Hin|]. split; [exact Hex|]. split; [exact Hok|]. split; [exact Hplain|].
  destruct (office_clean_preserves_other_parts rsid_id top_first PARANOID Office.NoFault
              disk "/docs/report.docx" "/docs/clean.docx" entries d0 Hin Hex Hok)
    as (es & Hes & _ & Hsub & Hpl).
  exists es. split; [exact Hes|]. split; [exact Hsub|exact (Hpl Hplain)].
Defined.

Lemma is_sensitive_exactly_witness :
  Office.local_name (tag modified_by) = "lastModifiedBy"
  /\ Office.is_sensitive modified_by = false
  /\ text (Office.blank_sensitive modified_by) = "Bob".
Proof.
  assert (H : Office.local_name (tag modified_by) = "lastModifiedBy")
    by (vm_compute; reflexivity).
  split; [exact H|].
  exact (proj2 (is_sensitive_exactly modified_by) (or_introl H)).
Defined.

Lemma nested_override_keeps_manifest_witness :
  nested_dir !! "[Content_Types].xml" = Some (Xml nested_manifest)
  /\ nested_group ∈ children nested_manifest
  /\ nested_override ∈ flat_map Office.iter (children nested_group)
  /\ targeted nested_override = true
  /\ Office.update_content_types nested_dir = nested_dir.
Proof.
  assert (H1 : nested_dir !! "[Content_Types].xml" = Some (Xml nested_manifest))
    by (vm_compute; reflexivity).
  assert (H2 : nested_group ∈ children nested_manifest) by (simpl; left).
  assert (H3 : nested_override ∈ flat_map Office.iter (children nested_group))
    by (simpl; left).
  assert (H4 : targeted nested_override = true) by (vm_compute; reflexivity).
  repeat (split; [assumption|]).
  exact (proj2 (nested_override_keeps_manifest nested_dir nested_manifest nested_group
                  nested_override H1 H2 H3 H4)).
Defined.

Lemma pdf_second_pass_witness :
  disk !! "/docs/paper.pdf" = Some (PdfDoc paper_pdf)
  /\ "/docs/clean.pdf" <> "/docs/paper.pdf"
  /\ Pdf.extract_metadata
       (Pdf.fs_after (Pdf.clean BASIC disk "/docs/paper.pdf" "/docs/clean.pdf"))
       "/docs/clean.pdf"
     = <["JavaScript" := "Present"]> {["Trailer.Info" := "Present"]}.
Proof.
  assert (H1 : disk !! "/docs/paper.pdf" = Some (PdfDoc paper_pdf))
    by (vm_compute; reflexivity).
  assert (H2 : "/docs/clean.pdf" <> "/docs/paper.pdf") by discriminate.
  split; [exact H1|]. split; [exact H2|].
  destruct (pdf_second_pass BASIC paper_pdf) as (Hdoc & _ & Hfile).
  rewrite (Hfile disk "/docs/paper.pdf" "/docs/clean.pdf" H1 H2). exact Hdoc.
Defined.


Lemma clean_file_missing_witness :
  disk !! "/docs/none.pdf" = None
  /\ rejected engine0.1 (mkWorld disk engine0.2)
       (clean_file0 engine0.1 quiet (mkWorld disk engine0.2) "/docs/none.pdf" None)
       "/docs/none.pdf" 0 "File not found: /docs/none.pdf".
Proof.
  assert (H : disk !! "/docs/none.pdf" = None) by (vm_compute; reflexivity).
  split; [exact H|].
  exact (clean_file_missing size1 hash0 rsid_id top_first foreign_copy engine0.1 quiet
           (mkWorld disk engine0.2) "/docs/none.pdf" None H).
Defined.

Lemma clean_file_unsupported_rejected_witness :
  is_Some (disk !! "/docs/notes.xyz")
  /\ is_supported_file "/docs/notes.xyz" = false
  /\ rejected engine0.1 (mkWorld disk engine0.2)
       (clean_file0 engine0.1 quiet (mkWorld disk engine0.2) "/docs/notes.xyz" None)
       "/docs/notes.xyz" 1 "Unsupported file type: .xyz".
Proof.
  assert (H1 : is_Some (disk !! "/docs/notes.xyz")) by (vm_compute; eauto).
  assert (H2 : is_supported_file "/docs/notes.xyz" = false) by (vm_compute; reflexivity).
  split; [exact H1|]. split; [exact H2|].
  exact (clean_file_unsupported_rejected size1 hash0 rsid_id top_first foreign_copy
           engine0.1 quiet (mkWorld disk engine0.2) "/docs/notes.xyz" None H1 H2).
Defined.




(** A batch with verification on over a file that cannot be opened
    returns no aggregate. *)
Example batch_raises_on_unreadable_file :
  exists exn,
    (clean_files size1 hash0 rsid_id top_first foreign_copy in_order engine_verify.1 []
       unreadable 1%Q (mkWorld disk engine_verify.2)
       ["/docs/report.docx"; "/docs/paper.pdf"]).1.1 = Raised exn.
Proof. eexists. vm_compute. reflexivity. Qed.



End MoreExamples.

(** ** The text cleaner (cleaners/text_cleaner.py) *)

Section TextFacts.
Import Fs Text Props.














Variable read_text : content -> string.
Variable write_text : string -> content.



End TextFacts.

Section TextExamples.
Import Fs Props Examples.



(** The memo of the examples: the info group and the title go. *)
Example memo_rtf_cleaned :
  Text.rtf_strip (read_raw memo_rtf) = "{\rtf1{{}}Hello \b world}"
  /\ map_to_list (Text.rtf_fields (PyStr.take 1000 (read_raw memo_rtf)))
     = [("Author", "Present")].
Proof. split; vm_compute; reflexivity. Qed.

End TextExamples.
